(** * Make-Friends backend: the friends routes over a document directory

    A shallow embedding of [routes/friends.js]: the Express handlers are
    functions in a small state-and-exception monad over the user collection,
    and the theorems below settle the behaviour the specification states for
    search, the friend-request life cycle and the recommendation engine. *)

From stdpp Require Import base list strings gmap sets sorting.
From Stdlib Require Import ZArith Ascii.

Local Open Scope nat_scope.

(** ** Documents *)

(** An [ObjectId] is represented by its 24-digit hexadecimal text, which is
    what [toString()] yields and what the routes compare. *)
Abbreviation ObjectId := string (only parsing).

Definition isHexDigit (c : ascii) : bool :=
  let n := nat_of_ascii c in
  ((48 <=? n) && (n <=? 57)) || ((97 <=? n) && (n <=? 102)) || ((65 <=? n) && (n <=? 70)).

(** Whether a text casts to an [ObjectId]: twenty-four hexadecimal digits,
    as the current driver has it (releases before bson 5 also cast any text
    of twelve characters).  [req.params.userId] is raw text of the URL and
    need not be one. *)
Definition isObjectIdText (s : string) : bool :=
  (String.length s =? 24) && forallb isHexDigit (String.list_ascii_of_string s).

(** Modelled from the spec: [models/User.js] (the Mongoose schema) is not
    among the sources.  The fields are the ones the routes read and write and
    the specification's data model lists; the relationship lists are arrays of
    identifiers, [interests] an array of strings.  [password] is [None] on a
    document fetched with [select('-password')].  [__v] is the version key
    Mongoose keeps on every document unless the schema turns it off. *)
Record User := mkUser {
  _id : ObjectId;
  username : string;
  password : option string;
  interests : list string;
  friends : list ObjectId;
  sentFriendRequests : list ObjectId;
  pendingFriendRequests : list ObjectId;
  __v : nat;
}.

(** A document hydrated by a [find(...).populate('friends')] query.  Every
    hydrated document is a fresh JavaScript object: [obj] is its identity,
    the only thing a [Set] compares. *)
Record Hydrated := mkHydrated {
  obj : nat;
  doc : User;
  populatedFriends : list User;
}.

(** ** JavaScript array and Set helpers *)

Module JS.

Section Sort.
Context {A : Type} (compareFn : A → A → Z).

(** [Array.prototype.sort(compareFn)] is stable; for a consistent
    comparator its result is the stable sorted arrangement, computed here
    by insertion from the right: an element moves past exactly the
    elements it compares greater than. *)
Fixpoint insert (x : A) (l : list A) : list A :=
  match l with
  | [] => [x]
  | y :: l' => if (0 <? compareFn x y)%Z then y :: insert x l' else x :: l
  end.

Fixpoint sort (l : list A) : list A :=
  match l with
  | [] => []
  | x :: l' => insert x (sort l')
  end.
End Sort.

(** [[...new Set(l)]] on objects: the first occurrence of every object
    identity, in insertion order. *)
Fixpoint spreadSet (seen : list nat) (l : list Hydrated) : list Hydrated :=
  match l with
  | [] => []
  | x :: l' =>
      if decide (obj x ∈ seen) then spreadSet seen l'
      else x :: spreadSet (obj x :: seen) l'
  end.

(** [a.slice(0, n)] *)
Definition slice0 {A : Type} (n : nat) (a : list A) : list A := take n a.
#[global] Arguments slice0 : simpl never.

End JS.

(** ** The directory: the collection, and the handlers' monad *)

(** The calls a route makes on the [User] model.  A [populate] is part of
    the query it is chained to and is not listed apart. *)
Inductive Call :=
| CallFindById (i : ObjectId)
| CallFind
| CallUpdate (i : ObjectId).

(** The state a handler runs in: the [users] collection in natural order, the
    next unused object identity, and the directory calls issued so far. *)
Record World := mkWorld {
  docs : list User;
  nextObj : nat;
  calls : list Call;
}.

Inductive Outcome (A : Type) :=
| Returned (a : A)
| Thrown.
Arguments Returned {A} a.
Arguments Thrown {A}.

(** An [async] function body: awaits run in sequence, an exception aborts. *)
Definition Async (A : Type) : Type := World → Outcome A * World.

#[global] Instance Async_ret : MRet Async := λ A a w, (Returned a, w).
#[global] Instance Async_bind : MBind Async := λ A B k m w,
  match m w with
  | (Returned a, w') => k a w'
  | (Thrown, w') => (Thrown, w')
  end.

Definition throw {A : Type} : Async A := λ w, (Thrown, w).

(** A response of an Express handler: [res.json(body)], or
    [res.status(code).json({ message })]. *)
Inductive Response (A : Type) :=
| Json (body : A)
| Status (code : nat) (message : string).
Arguments Json {A} body.
Arguments Status {A} code message.

(** [try { body } catch (error) { res.status(500).json({ message }) }] *)
Definition tryCatch {A : Type} (body : Async (Response A)) (message : string)
    (w : World) : Response A * World :=
  match body w with
  | (Returned r, w') => (r, w')
  | (Thrown, w') => (Status 500 message, w')
  end.

Module Mongoose.

Fixpoint lookupId (i : ObjectId) (l : list User) : option User :=
  match l with
  | [] => None
  | u :: l' => if decide (_id u = i) then Some u else lookupId i l'
  end.

Definition logCall (c : Call) (w : World) : World :=
  {| docs := docs w; nextObj := nextObj w; calls := calls w ++ [c] |}.

(** [User.findById(i)]: the document, or [null]; text that does not cast to
    an [ObjectId] is rejected with a [CastError] before any query is sent.
    Stored identifiers are [ObjectId]s, so the cast can only fail for a text
    under which nothing is stored. *)
Definition findById (i : ObjectId) : Async (option User) := λ w,
  match lookupId i (docs w) with
  | Some u => (Returned (Some u), logCall (CallFindById i) w)
  | None =>
      if isObjectIdText i then (Returned None, logCall (CallFindById i) w)
      else (Thrown, w)
  end.

(** [populate(path)] on an array of identifiers: the referenced documents
    in the array's order; identifiers of no document are dropped. *)
Definition populated (db : list User) (ids : list ObjectId) : list User :=
  omap (λ i, lookupId i db) ids.

Definition populate (ids : list ObjectId) : Async (list User) := λ w,
  (Returned (populated (docs w) ids), w).

(** [User.find(filter)]: the matching documents in natural order. *)
Definition find (P : User → Prop) `{∀ u, Decision (P u)} : Async (list User) := λ w,
  (Returned (filter P (docs w)), logCall CallFind w).

Fixpoint hydrate (db : list User) (n : nat) (l : list User) : list Hydrated :=
  match l with
  | [] => []
  | u :: l' =>
      {| obj := n; doc := u; populatedFriends := populated db (friends u) |}
        :: hydrate db (S n) l'
  end.

(** [User.find(filter).populate('friends')]: every result is a new object. *)
Definition findPopulateFriends (P : User → Prop) `{∀ u, Decision (P u)}
    : Async (list Hydrated) := λ w,
  let hits := filter P (docs w) in
  (Returned (hydrate (docs w) (nextObj w) hits),
   {| docs := docs w; nextObj := nextObj w + length hits;
      calls := calls w ++ [CallFind] |}).

(** [select('-password')] *)
Definition selectMinusPassword (u : User) : User :=
  {| _id := _id u; username := username u; password := None;
     interests := interests u; friends := friends u;
     sentFriendRequests := sentFriendRequests u;
     pendingFriendRequests := pendingFriendRequests u; __v := __v u |}.

(** The array paths of a user document. *)
Inductive Path := PathFriends | PathSent | PathPending.

#[global] Instance Path_eq_dec : EqDecision Path.
Proof. solve_decision. Defined.

Definition getPath (p : Path) (u : User) : list ObjectId :=
  match p with
  | PathFriends => friends u
  | PathSent => sentFriendRequests u
  | PathPending => pendingFriendRequests u
  end.

Definition setFriends (l : list ObjectId) (u : User) : User :=
  {| _id := _id u; username := username u; password := password u;
     interests := interests u; friends := l;
     sentFriendRequests := sentFriendRequests u;
     pendingFriendRequests := pendingFriendRequests u; __v := __v u |}.

Definition setSent (l : list ObjectId) (u : User) : User :=
  {| _id := _id u; username := username u; password := password u;
     interests := interests u; friends := friends u;
     sentFriendRequests := l;
     pendingFriendRequests := pendingFriendRequests u; __v := __v u |}.

Definition setPending (l : list ObjectId) (u : User) : User :=
  {| _id := _id u; username := username u; password := password u;
     interests := interests u; friends := friends u;
     sentFriendRequests := sentFriendRequests u;
     pendingFriendRequests := l; __v := __v u |}.

Definition setPath (p : Path) (l : list ObjectId) (u : User) : User :=
  match p with
  | PathFriends => setFriends l u
  | PathSent => setSent l u
  | PathPending => setPending l u
  end.

Definition incVersion (u : User) : User :=
  {| _id := _id u; username := username u; password := password u;
     interests := interests u; friends := friends u;
     sentFriendRequests := sentFriendRequests u;
     pendingFriendRequests := pendingFriendRequests u; __v := S (__v u) |}.

(** What a route did to a fetched document before saving it:
    [doc.path = l], or [doc.path.push(i)]. *)
Inductive Change :=
| Assign (p : Path) (l : list ObjectId)
| Push (p : Path) (i : ObjectId).

(** An assignment marks its path modified only if the value differs from
    the one fetched; a push always does. *)
Definition isModified (fetched : User) (c : Change) : bool :=
  match c with
  | Assign p l => negb (bool_decide (l = getPath p fetched))
  | Push _ _ => true
  end.

(** An assigned array is sent as a [$set] under the fetched version
    ([where __v]); a push is sent as a [$push], which needs no version. *)
Definition isVersioned (c : Change) : bool :=
  match c with
  | Assign _ _ => true
  | Push _ _ => false
  end.

(** The update as the database applies it to the stored document. *)
Definition applyChange (u : User) (c : Change) : User :=
  match c with
  | Assign p l => setPath p l u
  | Push p i => setPath p (getPath p u ++ [i]) u
  end.

Fixpoint updateId (i : ObjectId) (f : User → User) (l : list User) : list User :=
  match l with
  | [] => []
  | u :: l' => if decide (_id u = i) then f u :: l' else u :: updateId i f l'
  end.

(** [fetched.save()] after the route made [changes] to the copy it fetched.
    Only the modified paths are sent; with none, no update is sent at all.
    An update that sets an array matches the stored document only at the
    version the copy was fetched at, and is refused with a [VersionError]
    otherwise; every update to an array increments the version.  The schema
    is not among the sources: this is the behaviour of a schema that keeps
    Mongoose's default version key. *)
Definition save (fetched : User) (changes : list Change) : Async unit := λ w,
  match filter (λ c, Is_true (isModified fetched c)) changes with
  | [] => (Returned (), w)
  | delta =>
      match lookupId (_id fetched) (docs w) with
      | None => (Thrown, logCall (CallUpdate (_id fetched)) w)
      | Some stored =>
          if existsb isVersioned delta && negb (__v stored =? __v fetched)
          then (Thrown, logCall (CallUpdate (_id fetched)) w)
          else
            (Returned (),
             {| docs := updateId (_id fetched)
                          (λ u, incVersion (foldl applyChange u delta)) (docs w);
                nextObj := nextObj w;
                calls := calls w ++ [CallUpdate (_id fetched)] |})
      end
  end.

#[global] Arguments save : simpl never.

End Mongoose.

(** ** GET /recommendations *)

Record Recommendation := mkRecommendation {
  user : Hydrated;
  mutualFriends : nat;
  mutualInterests : nat;
  score : nat;
}.

(** The [map] callback of the scoring pipeline. *)
Definition scoreOf (friendIds : list ObjectId) (userInterests : list string)
    (potential : Hydrated) : Recommendation :=
  let mutualFriends :=
    length (filter (λ friend, _id friend ∈ friendIds) (populatedFriends potential)) in
  let mutualInterests :=
    length (filter (λ interest, interest ∈ interests (doc potential)) userInterests) in
  {| user := potential;
     mutualFriends := mutualFriends;
     mutualInterests := mutualInterests;
     score := (mutualFriends * 2) + mutualInterests |}.

(** [(a, b) => b.score - a.score] *)
Definition byScoreDesc (a b : Recommendation) : Z :=
  (Z.of_nat (score b) - Z.of_nat (score a))%Z.

Definition rank (friendIds : list ObjectId) (userInterests : list string)
    (allPotentialUsers : list Hydrated) : list Recommendation :=
  JS.slice0 5
    (JS.sort byScoreDesc
       (filter (λ rec, 0 < score rec)
          (scoreOf friendIds userInterests <$> allPotentialUsers))).

Definition hasMutualFriends (friendIds : list ObjectId) (potentialFriend : Hydrated) : Prop :=
  0 < length (filter (λ friend, _id friend ∈ friendIds) (populatedFriends potentialFriend)).

#[global] Instance hasMutualFriends_dec friendIds p : Decision (hasMutualFriends friendIds p).
Proof. unfold hasMutualFriends. apply _. Defined.

(** The interest-based pool: queried only when the subject has interests. *)
Definition gatherSimilarInterests (excludeIds : list ObjectId) (user : User)
    : Async (list Hydrated) :=
  if decide (0 < length (interests user)) then
    Mongoose.findPopulateFriends
      (λ c, (_id c ∉ excludeIds) ∧ Exists (λ i, i ∈ interests user) (interests c))
  else mret [].

(** The mutual-friend pool: queried only when the subject has friends, then
    narrowed to the users who share one. *)
Definition gatherMutualFriends (excludeIds friendIds : list ObjectId)
    : Async (list Hydrated) :=
  if decide (0 < length friendIds) then
    all ← Mongoose.findPopulateFriends (λ c, _id c ∉ excludeIds);
    mret (filter (hasMutualFriends friendIds) all)
  else mret [].

Definition recommendationsBody (userId : ObjectId) : Async (Response (list Recommendation)) :=
  found ← Mongoose.findById userId;
  match found with
  | None => throw
  | Some user =>
      userFriends ← Mongoose.populate (friends user);
      userSent ← Mongoose.populate (sentFriendRequests user);
      userPending ← Mongoose.populate (pendingFriendRequests user);
      let friendIds := _id <$> userFriends in
      let sentRequestIds := _id <$> userSent in
      let pendingRequestIds := _id <$> userPending in
      let excludeIds := friendIds ++ sentRequestIds ++ pendingRequestIds ++ [_id user] in
      similarInterestsUsers ← gatherSimilarInterests excludeIds user;
      mutualFriendsUsers ← gatherMutualFriends excludeIds friendIds;
      let allPotentialUsers :=
        JS.spreadSet [] (similarInterestsUsers ++ mutualFriendsUsers) in
      mret (Json (rank friendIds (interests user) allPotentialUsers))
  end.

Definition getRecommendations (userId : ObjectId) : World → Response (list Recommendation) * World :=
  tryCatch (recommendationsBody userId) "Error getting recommendations".

(** ** GET /search *)

Record EnhancedUser := mkEnhancedUser {
  found : User;
  requestStatus : string;
}.

Definition enhance (currentUser user : User) : EnhancedUser :=
  {| found := user;
     requestStatus :=
       if decide (_id user ∈ sentFriendRequests currentUser) then "requested"
       else if decide (_id user ∈ friends currentUser) then "friend" else "none" |}.

Section Search.

(** The database's regular-expression engine is outside the repository:
    [regex pattern options] is the compiled matcher, [None] when the
    pattern is rejected (the query then fails). *)
Variable regex : string → string → option (string → bool).

(** [req.query.username] is [None] when the parameter is absent. *)
Definition searchBody (userId : ObjectId) (queryUsername : option string)
    : Async (Response (list EnhancedUser)) :=
  match queryUsername with
  | None | Some "" => mret (Json [])
  | Some searchTerm =>
      currentUser ← Mongoose.findById userId;
      users ←
        match regex ("^" +:+ searchTerm) "i" with
        | None => _ ← Mongoose.find (λ _, False); throw
        | Some test =>
            hits ← Mongoose.find (λ u, test (username u) = true ∧ _id u ≠ userId);
            mret (JS.slice0 10 (Mongoose.selectMinusPassword <$> hits))
        end;
      match users, currentUser with
      | [], _ => mret (Json [])
      | _ :: _, None => throw
      | _ :: _, Some currentUser => mret (Json (enhance currentUser <$> users))
      end
  end.

Definition getSearch (userId : ObjectId) (queryUsername : option string)
    : World → Response (list EnhancedUser) * World :=
  tryCatch (searchBody userId queryUsername) "Error searching users".

End Search.

(** ** POST /request/:userId *)

Record RequestReply := mkRequestReply {
  message : string;
  status : string;
}.

Definition requestBody (userId paramUserId : ObjectId) : Async (Response RequestReply) :=
  sender ← Mongoose.findById userId;
  receiver ← Mongoose.findById paramUserId;
  match receiver with
  | None => mret (Status 404 "User not found")
  | Some receiver =>
      match sender with
      | None => throw
      | Some sender =>
          if decide (_id receiver ∈ friends sender) then
            mret (Status 400 "Already friends")
          else if decide (_id receiver ∈ sentFriendRequests sender) then
            let sent := filter (λ id, id ≠ _id receiver) (sentFriendRequests sender) in
            let pending := filter (λ id, id ≠ _id sender) (pendingFriendRequests receiver) in
            _ ← Mongoose.save sender [Mongoose.Assign Mongoose.PathSent sent];
            _ ← Mongoose.save receiver [Mongoose.Assign Mongoose.PathPending pending];
            mret (Json {| message := "Friend request cancelled"; status := "cancelled" |})
          else
            _ ← Mongoose.save receiver [Mongoose.Push Mongoose.PathPending (_id sender)];
            _ ← Mongoose.save sender [Mongoose.Push Mongoose.PathSent (_id receiver)];
            mret (Json {| message := "Friend request sent"; status := "requested" |})
      end
  end.

Definition postRequest (userId paramUserId : ObjectId) : World → Response RequestReply * World :=
  tryCatch (requestBody userId paramUserId) "Error managing friend request".

(** ** POST /accept/:userId *)

Definition acceptBody (userId paramUserId : ObjectId) : Async (Response string) :=
  receiver ← Mongoose.findById userId;
  sender ← Mongoose.findById paramUserId;
  match sender with
  | None => mret (Status 404 "User not found")
  | Some sender =>
      match receiver with
      | None => throw
      | Some receiver =>
          let pending := filter (λ id, id ≠ _id sender) (pendingFriendRequests receiver) in
          let sent := filter (λ id, id ≠ _id receiver) (sentFriendRequests sender) in
          _ ← Mongoose.save receiver
                [Mongoose.Assign Mongoose.PathPending pending;
                 Mongoose.Push Mongoose.PathFriends (_id sender)];
          _ ← Mongoose.save sender
                [Mongoose.Assign Mongoose.PathSent sent;
                 Mongoose.Push Mongoose.PathFriends (_id receiver)];
          mret (Json "Friend request accepted")
      end
  end.

Definition postAccept (userId paramUserId : ObjectId) : World → Response string * World :=
  tryCatch (acceptBody userId paramUserId) "Error accepting friend request".

(** The size of the set intersection of two interest lists, as the
    specification words [mutualInterestCount]. *)
Definition interestOverlap (candidateInterests subjectInterests : list string) : nat :=
  size ((list_to_set candidateInterests : gset string) ∩ list_to_set subjectInterests).

(** The strings the two interest lists share, each listed once. *)
Definition sharedInterests (candidateInterests subjectInterests : list string)
    : list string :=
  remove_dups (filter (λ interest, interest ∈ candidateInterests) subjectInterests).

(** How often a list of interests holds a string. *)
Definition occurrences (interest : string) (l : list string) : nat :=
  length (filter (λ x, x = interest) l).

(** The identifiers a subject must never be recommended. *)
Definition exclusionSet (subject : User) : list ObjectId :=
  friends subject ++ sentFriendRequests subject
    ++ pendingFriendRequests subject ++ [_id subject].

(** ** Descriptions of what a run leaves behind *)

(** What a candidate that reached scoring is known to satisfy. *)
Definition gathered (db : list User) (subject : User) (p : Hydrated) : Prop :=
  doc p ∈ db
  ∧ populatedFriends p = Mongoose.populated db (friends (doc p))
  ∧ _id (doc p) ∉
      (_id <$> Mongoose.populated db (friends subject))
        ++ (_id <$> Mongoose.populated db (sentFriendRequests subject))
        ++ (_id <$> Mongoose.populated db (pendingFriendRequests subject))
        ++ [_id subject].

(** The reply of the request route, by whether the request existed. *)
Definition replyFor (existing : bool) : RequestReply :=
  if existing
  then {| message := "Friend request cancelled"; status := "cancelled" |}
  else {| message := "Friend request sent"; status := "requested" |}.

(** ** Example collections *)

Module Demo.
(** ann and bob both play chess and share the friend fay; cat is someone
    ann has already asked. *)
Definition ann :=
  mkUser "a1a1a1a1a1a1a1a1a1a1a1a1" "ann" (Some "#") ["chess"]
    ["f1f1f1f1f1f1f1f1f1f1f1f1"] ["c1c1c1c1c1c1c1c1c1c1c1c1"] [] 0.
Definition fay :=
  mkUser "f1f1f1f1f1f1f1f1f1f1f1f1" "fay" (Some "#") []
    ["a1a1a1a1a1a1a1a1a1a1a1a1"; "b1b1b1b1b1b1b1b1b1b1b1b1"] [] [] 0.
Definition bob :=
  mkUser "b1b1b1b1b1b1b1b1b1b1b1b1" "bob" (Some "#") ["chess"]
    ["f1f1f1f1f1f1f1f1f1f1f1f1"] [] [] 0.
Definition cat :=
  mkUser "c1c1c1c1c1c1c1c1c1c1c1c1" "cat" (Some "#") ["chess"]
    [] [] ["a1a1a1a1a1a1a1a1a1a1a1a1"] 0.
Definition world := mkWorld [ann; fay; bob; cat] 0 [].

(** dan listed the same interest twice when registering. *)
Definition dan :=
  mkUser "d1d1d1d1d1d1d1d1d1d1d1d1" "dan" (Some "#") ["chess"; "chess"] [] [] [] 0.
Definition eve := mkUser "e1e1e1e1e1e1e1e1e1e1e1e1" "eve" (Some "#") ["chess"] [] [] [] 0.
Definition repeated := mkWorld [dan; eve] 0 [].

(** gus has neither interests nor friends. *)
Definition gus := mkUser "9a9a9a9a9a9a9a9a9a9a9a9a" "gus" (Some "#") [] [] [] [] 0.
Definition lonely := mkWorld [gus; eve] 0 [].

(** A stand-in for the database's expression engine, enough to run the
    search route on examples: the pattern is a caret followed by literal
    text, matched as a prefix. *)
Definition literalPrefix (pattern options : string) : option (string → bool) :=
  match pattern with
  | String "^"%char text => Some (String.prefix text)
  | _ => None
  end.
End Demo.

(** ** GET / and GET /pending *)

Definition friendsBody (userId : ObjectId) : Async (Response (list User)) :=
  fetched ← Mongoose.findById userId;
  match fetched with
  | None => throw
  | Some caller =>
      callerFriends ← Mongoose.populate (friends caller);
      mret (Json callerFriends)
  end.

Definition getFriends (userId : ObjectId) : World → Response (list User) * World :=
  tryCatch (friendsBody userId) "Error fetching friends".

Definition pendingBody (userId : ObjectId) : Async (Response (list User)) :=
  fetched ← Mongoose.findById userId;
  match fetched with
  | None => throw
  | Some caller =>
      pendingRequests ← Mongoose.populate (pendingFriendRequests caller);
      mret (Json pendingRequests)
  end.

Definition getPending (userId : ObjectId) : World → Response (list User) * World :=
  tryCatch (pendingBody userId) "Error fetching pending friend requests".

(** ** POST /unfriend/:userId *)

Definition unfriendBody (userId paramUserId : ObjectId) : Async (Response string) :=
  caller ← Mongoose.findById userId;
  friend ← Mongoose.findById paramUserId;
  match friend with
  | None => mret (Status 404 "User not found")
  | Some friend =>
      match caller with
      | None => throw
      | Some caller =>
          let callerFriends := filter (λ id, id ≠ _id friend) (friends caller) in
          let friendFriends := filter (λ id, id ≠ _id caller) (friends friend) in
          _ ← Mongoose.save caller [Mongoose.Assign Mongoose.PathFriends callerFriends];
          _ ← Mongoose.save friend [Mongoose.Assign Mongoose.PathFriends friendFriends];
          mret (Json "Friend removed")
      end
  end.

Definition postUnfriend (userId paramUserId : ObjectId) : World → Response string * World :=
  tryCatch (unfriendBody userId paramUserId) "Error removing friend".

(** ** Descriptions of what the writing routes leave behind *)

Definition pathOf (c : Mongoose.Change) : Mongoose.Path :=
  match c with
  | Mongoose.Assign p _ => p
  | Mongoose.Push p _ => p
  end.

(** Two states of a document that agree on everything but the relationship
    lists and the version key. *)
Definition sameProfile (u u' : User) : Prop :=
  _id u' = _id u ∧ username u' = username u
  ∧ password u' = password u ∧ interests u' = interests u.

(** [db'] stores the users [db] stores, each with its profile, and with every
    relationship list that [touched] does not name as it was. *)
Definition framed (touched : ObjectId → Mongoose.Path → Prop) (db db' : list User) : Prop :=
  ∀ i,
    option_Forall2
      (λ u u', sameProfile u u'
               ∧ ∀ p, ¬ touched i p → Mongoose.getPath p u' = Mongoose.getPath p u)
      (Mongoose.lookupId i db) (Mongoose.lookupId i db').

(** [db'] stores the users [db] stores, each with its profile and with the
    relationship lists [lists] gives for it. *)
Definition relisted (lists : ObjectId → User → Mongoose.Path → list ObjectId)
    (db db' : list User) : Prop :=
  ∀ i,
    option_Forall2
      (λ u u', sameProfile u u' ∧ ∀ p, Mongoose.getPath p u' = lists i u p)
      (Mongoose.lookupId i db) (Mongoose.lookupId i db').

(** The lists one request by [userId] to another user [paramUserId] leaves
    in the document stored under [i]: the sender's sent list and the
    receiver's pending list lose every entry of the pair when the request
    existed, and gain one otherwise. *)
Definition requestLists (userId paramUserId : ObjectId) (existing : bool)
    (i : ObjectId) (u : User) (p : Mongoose.Path) : list ObjectId :=
  match p with
  | Mongoose.PathFriends => friends u
  | Mongoose.PathSent =>
      if decide (i = userId) then
        if existing then filter (λ id, id ≠ paramUserId) (sentFriendRequests u)
        else sentFriendRequests u ++ [paramUserId]
      else sentFriendRequests u
  | Mongoose.PathPending =>
      if decide (i = paramUserId) then
        if existing then filter (λ id, id ≠ userId) (pendingFriendRequests u)
        else pendingFriendRequests u ++ [userId]
      else pendingFriendRequests u
  end.

(** The lists one acceptance, by caller [userId] of another user
    [paramUserId], leaves in the document stored under [i]. *)
Definition acceptLists (userId paramUserId : ObjectId)
    (i : ObjectId) (u : User) (p : Mongoose.Path) : list ObjectId :=
  match p with
  | Mongoose.PathFriends =>
      if decide (i = userId) then friends u ++ [paramUserId]
      else if decide (i = paramUserId) then friends u ++ [userId]
      else friends u
  | Mongoose.PathSent =>
      if decide (i = paramUserId)
      then filter (λ id, id ≠ userId) (sentFriendRequests u)
      else sentFriendRequests u
  | Mongoose.PathPending =>
      if decide (i = userId)
      then filter (λ id, id ≠ paramUserId) (pendingFriendRequests u)
      else pendingFriendRequests u
  end.

(** The lists one unfriending, by caller [userId] of another user
    [paramUserId], leaves in the document stored under [i]. *)
Definition unfriendLists (userId paramUserId : ObjectId)
    (i : ObjectId) (u : User) (p : Mongoose.Path) : list ObjectId :=
  match p with
  | Mongoose.PathFriends =>
      if decide (i = userId) then filter (λ id, id ≠ paramUserId) (friends u)
      else if decide (i = paramUserId) then filter (λ id, id ≠ userId) (friends u)
      else friends u
  | Mongoose.PathSent => sentFriendRequests u
  | Mongoose.PathPending => pendingFriendRequests u
  end.





(** The three routes that write relationship lists, as calls. *)
Inductive Write :=
| WriteRequest (userId paramUserId : ObjectId)
| WriteAccept (userId paramUserId : ObjectId)
| WriteUnfriend (userId paramUserId : ObjectId).



(** A call a user makes on another user, not on themself. *)
Definition onAnother (op : Write) : Prop :=
  match op with
  | WriteRequest userId paramUserId => userId ≠ paramUserId
  | WriteAccept userId paramUserId => userId ≠ paramUserId
  | WriteUnfriend userId paramUserId => userId ≠ paramUserId
  end.

#[global] Instance onAnother_dec (op : Write) : Decision (onAnother op).
Proof. destruct op; simpl; apply _. Defined.

(** An [async] body that leaves the collection as it found it. *)
Definition readOnly {A : Type} (m : Async A) : Prop :=
  ∀ w, docs (m w).2 = docs w.

(** The score the pipeline of GET /recommendations gives the stored user
    [c] when [subject] asks. *)
Definition candidateScore (db : list User) (subject c : User) : nat :=
  score (scoreOf (_id <$> Mongoose.populated db (friends subject)) (interests subject)
           {| obj := 0; doc := c; populatedFriends := Mongoose.populated db (friends c) |}).

(** ** routes/auth.js *)

(** A reply of the auth routes: [res.status(code).json({ token, userId })]
    (status 200 when [res.json] is called directly), or
    [res.status(code).json({ message })]. *)
Inductive AuthResponse :=
| Issued (code : nat) (token : string) (userId : ObjectId)
| Refused (code : nat) (message : string).

Definition authCatch (body : Async AuthResponse) (message : string)
    (w : World) : AuthResponse * World :=
  match body w with
  | (Returned r, w') => (r, w')
  | (Thrown, w') => (Refused 500 message, w')
  end.

(** [User.findOne({ username })]: the first document with that username. *)
Fixpoint lookupUsername (name : string) (l : list User) : option User :=
  match l with
  | [] => None
  | u :: l' => if decide (username u = name) then Some u else lookupUsername name l'
  end.

Definition findOneByUsername (name : string) : Async (option User) := λ w,
  (Returned (lookupUsername name (docs w)), Mongoose.logCall CallFind w).

Section Auth.

(** The schema and the token library are outside the sources.
    [construct username password interests db] is the document that
    [new User({ username, password, interests })] followed by [save()] stores
    in collection [db] (its fresh identifier, the stored form of the
    password, the schema's defaults), [None] when validation or the save
    rejects it.  [comparePassword] is the schema method of that name and
    [sign userId] is [jwt.sign({ userId }, process.env.JWT_SECRET)]; both are
    [None] when they throw. *)
Variable construct : string → string → list string → list User → option User.
Variable comparePassword : User → string → option bool.
Variable sign : ObjectId → option string.

Definition registerBody (bodyUsername bodyPassword : string) (bodyInterests : list string)
    : Async AuthResponse :=
  existingUser ← findOneByUsername bodyUsername;
  match existingUser with
  | Some _ => mret (Refused 400 "Username already exists")
  | None =>
      λ w,
        match construct bodyUsername bodyPassword bodyInterests (docs w) with
        | None => (Thrown, w)
        | Some created =>
            let w' :=
              {| docs := docs w ++ [created]; nextObj := nextObj w;
                 calls := calls w ++ [CallUpdate (_id created)] |} in
            match sign (_id created) with
            | None => (Thrown, w')
            | Some token => (Returned (Issued 201 token (_id created)), w')
            end
        end
  end.

Definition postRegister (bodyUsername bodyPassword : string) (bodyInterests : list string)
    : World → AuthResponse * World :=
  authCatch (registerBody bodyUsername bodyPassword bodyInterests) "Error creating user".

Definition loginBody (bodyUsername bodyPassword : string) : Async AuthResponse :=
  fetched ← findOneByUsername bodyUsername;
  match fetched with
  | None => mret (Refused 400 "User not found")
  | Some account =>
      match comparePassword account bodyPassword with
      | None => throw
      | Some false => mret (Refused 400 "Invalid credentials")
      | Some true =>
          match sign (_id account) with
          | None => throw
          | Some token => mret (Issued 200 token (_id account))
          end
      end
  end.

Definition postLogin (bodyUsername bodyPassword : string) : World → AuthResponse * World :=
  authCatch (loginBody bodyUsername bodyPassword) "Error logging in".

End Auth.

(** Stand-ins for the schema and the token library, enough to run the auth
    routes on examples: the identifier is derived from the size of the
    collection, the password is stored as given and compared literally, the
    lists start empty, and the token spells out the identifier. *)
Module AuthDemo.
Definition digit (n : nat) : string :=
  match n mod 10 with
  | 0 => "0" | 1 => "1" | 2 => "2" | 3 => "3" | 4 => "4"
  | 5 => "5" | 6 => "6" | 7 => "7" | 8 => "8" | _ => "9"
  end.
Definition freshId (n : nat) : ObjectId :=
  "abababababababababababa" +:+ digit n.
Definition construct (name pass : string) (ints : list string) (db : list User)
    : option User :=
  Some (mkUser (freshId (length db)) name (Some pass) ints [] [] [] 0).
Definition comparePassword (u : User) (candidate : string) : option bool :=
  Some (bool_decide (password u = Some candidate)).
Definition sign (userId : ObjectId) : option string := Some ("token-" +:+ userId).
End AuthDemo.

(** * Properties *)

(** ** Arrays *)

Section SortFacts.
Context {A : Type} (compareFn : A → A → Z).

Lemma elem_of_insert (x y : A) (l : list A) :
  y ∈ JS.insert compareFn x l ↔ y = x ∨ y ∈ l.
Proof.
  induction l as [|z l IH]; simpl.
  - rewrite list_elem_of_singleton, elem_of_nil. tauto.
  - destruct (0 <? compareFn x z)%Z.
    + rewrite !elem_of_cons, IH. tauto.
    + rewrite !elem_of_cons. tauto.
Qed.

Lemma elem_of_sort (y : A) (l : list A) : y ∈ JS.sort compareFn l ↔ y ∈ l.
Proof.
  induction l as [|x l IH]; simpl; [done|].
  rewrite elem_of_insert, elem_of_cons, IH. tauto.
Qed.

Lemma length_insert_sorted (x : A) (l : list A) :
  length (JS.insert compareFn x l) = S (length l).
Proof.
  induction l as [|z l IH]; simpl; [done|].
  destruct (0 <? compareFn x z)%Z; simpl; congruence.
Qed.

Lemma length_sort (l : list A) : length (JS.sort compareFn l) = length l.
Proof.
  induction l as [|x l IH]; simpl; [done|].
  by rewrite length_insert_sorted, IH.
Qed.

(** A comparator is consistent on a pair when a positive answer one way
    is never a positive answer the other way. *)
Hypothesis consistent : ∀ x y, (0 < compareFn x y)%Z → (compareFn y x ≤ 0)%Z.

Let before (x y : A) : Prop := (compareFn x y ≤ 0)%Z.

Lemma HdRel_insert (x a : A) (l : list A) :
  before a x → HdRel before a l → HdRel before a (JS.insert compareFn x l).
Proof.
  intros Hax Hl. destruct l as [|z l]; simpl.
  - by constructor.
  - destruct (0 <? compareFn x z)%Z; constructor; [|done].
    by inversion Hl.
Qed.

Lemma Sorted_insert (x : A) (l : list A) :
  Sorted before l → Sorted before (JS.insert compareFn x l).
Proof.
  induction 1 as [|z l Hl IH Hz]; simpl.
  - repeat constructor.
  - destruct (0 <? compareFn x z)%Z eqn:Hcmp.
    + apply Z.ltb_lt in Hcmp. constructor; [done|].
      apply HdRel_insert; [by apply consistent|done].
    + apply Z.ltb_ge in Hcmp. constructor; [by constructor|by constructor].
Qed.

Lemma Sorted_sort (l : list A) : Sorted before (JS.sort compareFn l).
Proof.
  induction l as [|x l IH]; simpl; [constructor|by apply Sorted_insert].
Qed.

Lemma Sorted_adjacent (l : list A) (i : nat) (a b : A) :
  Sorted before l → l !! i = Some a → l !! S i = Some b → before a b.
Proof.
  intros Hl. revert i. induction Hl as [|z l Hl IH Hz]; intros i Ha Hb; [done|].
  destruct i as [|i]; simpl in *.
  - simplify_eq. destruct l as [|c l]; simplify_eq/=. by inversion Hz.
  - by eapply IH.
Qed.
End SortFacts.

Lemma spreadSet_subseteq (seen : list nat) (l : list Hydrated) (x : Hydrated) :
  x ∈ JS.spreadSet seen l → x ∈ l.
Proof.
  revert seen. induction l as [|y l IH]; intros seen; simpl; [done|].
  destruct (decide (obj y ∈ seen)); rewrite !elem_of_cons.
  - intros Hx. right. by eapply IH.
  - intros [Hx|Hx]; [by left|right; by eapply IH].
Qed.

(** A [Set] of objects whose identities are pairwise distinct, and none of
    them seen yet, keeps every one of them. *)
Lemma spreadSet_fresh (seen : list nat) (l : list Hydrated) :
  NoDup (obj <$> l) → (∀ x, x ∈ l → obj x ∉ seen) → JS.spreadSet seen l = l.
Proof.
  revert seen. induction l as [|y l IH]; intros seen Hnd Hseen; simpl; [done|].
  apply NoDup_cons in Hnd as [Hy Hnd].
  case_decide as Hin.
  - exfalso. by apply (Hseen y); [left|].
  - f_equal. apply IH; [done|]. intros x Hx Hs.
    apply elem_of_cons in Hs as [Heq|Hs].
    + apply Hy. rewrite <- Heq. by apply list_elem_of_fmap_2.
    + by apply (Hseen x); [right|].
Qed.

(** ** The directory *)

Lemma lookupId_Some (i : ObjectId) (db : list User) (u : User) :
  Mongoose.lookupId i db = Some u → _id u = i ∧ u ∈ db.
Proof.
  induction db as [|v db IH]; simpl; [done|].
  destruct (decide (_id v = i)) as [Hv|Hv].
  - intros [= ->]. split; [done|by left].
  - intros [? ?]%IH. split; [done|by right].
Qed.

Lemma lookupId_elem_of (c : User) (db : list User) :
  c ∈ db → is_Some (Mongoose.lookupId (_id c) db).
Proof.
  induction db as [|v db IH]; [by intros ?%elem_of_nil|].
  intros Hc. simpl. destruct (decide (_id v = _id c)); [by eexists|].
  apply IH. apply elem_of_cons in Hc as [->|Hc]; [done|done].
Qed.

Lemma populated_ids (db : list User) (ids : list ObjectId) (i : ObjectId) :
  i ∈ ids → is_Some (Mongoose.lookupId i db) → i ∈ _id <$> Mongoose.populated db ids.
Proof.
  intros Hi [u Hu]. apply list_elem_of_fmap. exists u.
  split; [by apply lookupId_Some in Hu as [? _]|].
  apply list_elem_of_omap. by exists i.
Qed.

Lemma populated_nil (db : list User) : Mongoose.populated db [] = [].
Proof. done. Qed.

Lemma elem_of_hydrate (db : list User) (n : nat) (l : list User) (p : Hydrated) :
  p ∈ Mongoose.hydrate db n l →
  doc p ∈ l ∧ populatedFriends p = Mongoose.populated db (friends (doc p)).
Proof.
  revert n. induction l as [|u l IH]; intros n; simpl; [by intros ?%elem_of_nil|].
  intros [->|Hp]%elem_of_cons; simpl.
  - split; [by left|done].
  - apply IH in Hp as [? ?]. split; [by right|done].
Qed.

Lemma hydrate_obj (db : list User) (n : nat) (l : list User) :
  obj <$> Mongoose.hydrate db n l = seq n (length l).
Proof.
  revert n. induction l as [|u l IH]; intros n; simpl; [done|].
  by rewrite IH.
Qed.

(** ** GET /recommendations: the shape of a run *)

Lemma elem_of_rank (friendIds : list ObjectId) (userInterests : list string)
    (pool : list Hydrated) (rec : Recommendation) :
  rec ∈ rank friendIds userInterests pool →
  ∃ p, p ∈ pool ∧ rec = scoreOf friendIds userInterests p ∧ 0 < score rec.
Proof.
  unfold rank, JS.slice0. intros Hrec.
  apply elem_of_take in Hrec as (i & Hi & _).
  apply list_elem_of_lookup_2, elem_of_sort in Hi.
  apply list_elem_of_filter in Hi as [Hpos Hi].
  apply list_elem_of_fmap in Hi as (p & -> & Hp). eauto.
Qed.

Lemma getRecommendations_run (w : World) (userId : ObjectId) (subject : User) :
  Mongoose.lookupId userId (docs w) = Some subject →
  ∃ pool w',
    getRecommendations userId w =
      (Json (rank (_id <$> Mongoose.populated (docs w) (friends subject))
               (interests subject) pool), w')
    ∧ (∀ p, p ∈ pool → gathered (docs w) subject p)
    ∧ (interests subject = [] → friends subject = [] →
       pool = [] ∧ calls w' = calls w ++ [CallFindById userId]).
Proof.
  intros Hsubject.
  unfold getRecommendations, tryCatch, recommendationsBody, gatherSimilarInterests,
    gatherMutualFriends, mbind, Async_bind, Mongoose.findById, Mongoose.populate.
  simpl. rewrite Hsubject. simpl.
  destruct (decide (0 < length (interests subject))) as [Hi|Hi];
    destruct (decide (0 < length (_id <$> Mongoose.populated (docs w) (friends subject))))
      as [Hf|Hf]; simpl; eexists _, _; (split; [reflexivity|]); split.
  all: try (intros p Hp;
            first [ by apply elem_of_nil in Hp | apply spreadSet_subseteq in Hp ];
            rewrite ?app_nil_r in Hp; rewrite ?elem_of_app in Hp;
            repeat match goal with
            | H : _ ∨ _ |- _ => destruct H
            | H : _ ∈ filter _ _ |- _ => apply list_elem_of_filter in H as [_ H]
            | H : _ ∈ Mongoose.hydrate _ _ _ |- _ =>
                apply elem_of_hydrate in H as [H ?];
                apply list_elem_of_filter in H as [? ?]
            end; unfold gathered; tauto).
  all: intros Hi0 Hf0; rewrite ?Hi0, ?Hf0 in *; simpl in *; try lia; done.
Qed.

(** The interest-based pool is empty, and no query is sent for it, when the
    subject has no interests. *)
Lemma gatherSimilarInterests_none (excludeIds : list ObjectId) (user : User) (w : World) :
  interests user = [] → gatherSimilarInterests excludeIds user w = (Returned [], w).
Proof. intros Hnone. unfold gatherSimilarInterests. by rewrite Hnone. Qed.

(** The mutual-friend pool is empty, and no query is sent for it, when the
    subject has no friends. *)
Lemma gatherMutualFriends_none (excludeIds : list ObjectId) (w : World) :
  gatherMutualFriends excludeIds (_id <$> Mongoose.populated (docs w) []) w
  = (Returned [], w).
Proof. done. Qed.

(** ** GET /recommendations: the specification's properties *)

(** C1. Whoever the subject is, no element of the recommendation output has
    an identifier in the exclusion set: the subject's friends, the subject's
    sent requests, the subject's pending requests, or the subject itself. *)
Theorem recommendations_exclusion (w : World) (userId : ObjectId) (subject : User) :
  Mongoose.lookupId userId (docs w) = Some subject →
  ∃ recs w',
    getRecommendations userId w = (Json recs, w')
    ∧ ∀ rec, rec ∈ recs → _id (doc (user rec)) ∉ exclusionSet subject.
Proof.
  intros Hsubject.
  destruct (getRecommendations_run w userId subject Hsubject)
    as (pool & w' & Hrun & Hpool & _).
  eexists _, w'. split; [exact Hrun|].
  intros rec (p & Hp & -> & _)%elem_of_rank. simpl.
  destruct (Hpool p Hp) as (Hdoc & _ & Hnin).
  intros Hin. apply Hnin. unfold exclusionSet in Hin.
  pose proof (lookupId_elem_of _ _ Hdoc) as Hsome.
  rewrite !elem_of_app in Hin. rewrite !elem_of_app.
  destruct Hin as [Hin|[Hin|[Hin|Hin]]]; eauto using populated_ids.
Qed.

Lemma recommendations_exclusion_witness :
  ∃ recs w',
    getRecommendations "a1a1a1a1a1a1a1a1a1a1a1a1" Demo.world = (Json recs, w')
    ∧ ∀ rec, rec ∈ recs → _id (doc (user rec)) ∉ exclusionSet Demo.ann.
Proof. apply (recommendations_exclusion Demo.world "a1a1a1a1a1a1a1a1a1a1a1a1" Demo.ann). reflexivity. Defined.

(** C4. Every element of the recommendation output has
    [score = mutualFriends * 2 + mutualInterests], and a score above zero;
    the two counts are the ones computed from the element's own candidate. *)
Theorem recommendations_score (w : World) (userId : ObjectId) (subject : User) :
  Mongoose.lookupId userId (docs w) = Some subject →
  ∃ recs w',
    getRecommendations userId w = (Json recs, w')
    ∧ ∀ rec, rec ∈ recs →
        score rec = mutualFriends rec * 2 + mutualInterests rec
        ∧ 0 < score rec
        ∧ rec = scoreOf (_id <$> Mongoose.populated (docs w) (friends subject))
                  (interests subject) (user rec).
Proof.
  intros Hsubject.
  destruct (getRecommendations_run w userId subject Hsubject)
    as (pool & w' & Hrun & _ & _).
  eexists _, w'. split; [exact Hrun|].
  intros rec (p & _ & Hrec & Hpos)%elem_of_rank.
  split; [by rewrite Hrec|]. split; [exact Hpos|by rewrite Hrec].
Qed.

Lemma recommendations_score_witness :
  ∃ recs w',
    getRecommendations "a1a1a1a1a1a1a1a1a1a1a1a1" Demo.world = (Json recs, w')
    ∧ ∀ rec, rec ∈ recs →
        score rec = mutualFriends rec * 2 + mutualInterests rec
        ∧ 0 < score rec
        ∧ rec = scoreOf (_id <$> Mongoose.populated (docs Demo.world) (friends Demo.ann))
                  (interests Demo.ann) (user rec).
Proof. apply (recommendations_score Demo.world "a1a1a1a1a1a1a1a1a1a1a1a1" Demo.ann). reflexivity. Defined.

Lemma byScoreDesc_consistent (a b : Recommendation) :
  (0 < byScoreDesc a b)%Z → (byScoreDesc b a ≤ 0)%Z.
Proof. unfold byScoreDesc. lia. Qed.

(** C5. The recommendation output is ordered by score, non-increasing: at
    all adjacent positions [i] and [i + 1], [score[i] >= score[i + 1]]. *)
Theorem recommendations_sorted (w : World) (userId : ObjectId) (subject : User) :
  Mongoose.lookupId userId (docs w) = Some subject →
  ∃ recs w',
    getRecommendations userId w = (Json recs, w')
    ∧ ∀ i a b, recs !! i = Some a → recs !! S i = Some b → score b ≤ score a.
Proof.
  intros Hsubject.
  destruct (getRecommendations_run w userId subject Hsubject)
    as (pool & w' & Hrun & _ & _).
  eexists _, w'. split; [exact Hrun|].
  unfold rank, JS.slice0. intros i a b Ha Hb.
  apply lookup_take_Some in Ha as [Ha _]. apply lookup_take_Some in Hb as [Hb _].
  pose proof (Sorted_adjacent byScoreDesc _ i a b
                (Sorted_sort byScoreDesc byScoreDesc_consistent _) Ha Hb) as Hab.
  unfold byScoreDesc in Hab. lia.
Qed.

Lemma recommendations_sorted_witness :
  ∃ recs w',
    getRecommendations "a1a1a1a1a1a1a1a1a1a1a1a1" Demo.world = (Json recs, w')
    ∧ ∀ i a b, recs !! i = Some a → recs !! S i = Some b → score b ≤ score a.
Proof. apply (recommendations_sorted Demo.world "a1a1a1a1a1a1a1a1a1a1a1a1" Demo.ann). reflexivity. Defined.

(** C6. The recommendation output has at most [maxResults] elements, the
    cap being fixed at 5. *)
Theorem recommendations_capped (w : World) (userId : ObjectId) (subject : User) :
  Mongoose.lookupId userId (docs w) = Some subject →
  ∃ recs w', getRecommendations userId w = (Json recs, w') ∧ length recs ≤ 5.
Proof.
  intros Hsubject.
  destruct (getRecommendations_run w userId subject Hsubject)
    as (pool & w' & Hrun & _ & _).
  eexists _, w'. split; [exact Hrun|].
  unfold rank, JS.slice0. rewrite length_take. lia.
Qed.

Lemma recommendations_capped_witness :
  ∃ recs w', getRecommendations "a1a1a1a1a1a1a1a1a1a1a1a1" Demo.world = (Json recs, w') ∧ length recs ≤ 5.
Proof. apply (recommendations_capped Demo.world "a1a1a1a1a1a1a1a1a1a1a1a1" Demo.ann). reflexivity. Defined.

(** C7. A subject whose interests list is empty and whose friends list is
    empty gets the empty sequence: neither pool is queried, the run makes no
    [User.find] call after the [findById] that fetches the subject. *)
Theorem recommendations_nothing_known (w : World) (userId : ObjectId) (subject : User) :
  Mongoose.lookupId userId (docs w) = Some subject →
  interests subject = [] →
  friends subject = [] →
  ∃ w', getRecommendations userId w = (Json [], w')
        ∧ calls w' = calls w ++ [CallFindById userId].
Proof.
  intros Hsubject Hinterests Hfriends.
  destruct (getRecommendations_run w userId subject Hsubject)
    as (pool & w' & Hrun & _ & Hempty).
  destruct (Hempty Hinterests Hfriends) as [-> Hcalls].
  exists w'. by rewrite Hrun.
Qed.

Lemma recommendations_nothing_known_witness :
  ∃ w', getRecommendations "9a9a9a9a9a9a9a9a9a9a9a9a" Demo.lonely = (Json [], w')
        ∧ calls w' = calls Demo.lonely ++ [CallFindById "9a9a9a9a9a9a9a9a9a9a9a9a"].
Proof.
  apply (recommendations_nothing_known Demo.lonely "9a9a9a9a9a9a9a9a9a9a9a9a" Demo.gus); reflexivity.
Defined.

(** ** Interests counted with repetition *)

Lemma mutualInterests_scoreOf (friendIds : list ObjectId) (userInterests : list string)
    (p : Hydrated) :
  mutualInterests (scoreOf friendIds userInterests p)
  = length (filter (λ interest, interest ∈ interests (doc p)) userInterests).
Proof. done. Qed.

Lemma overlap_of_distinct (candidateInterests subjectInterests : list string) :
  NoDup subjectInterests →
  length (filter (λ interest, interest ∈ candidateInterests) subjectInterests)
  = interestOverlap candidateInterests subjectInterests.
Proof.
  intros Hdistinct. unfold interestOverlap.
  rewrite <- (size_list_to_set (C:=gset string)
                (filter (λ interest, interest ∈ candidateInterests) subjectInterests))
    by by apply NoDup_filter.
  f_equal. apply set_eq. intros x.
  rewrite elem_of_list_to_set, list_elem_of_filter, elem_of_intersection,
    !elem_of_list_to_set. done.
Qed.

Lemma sum_list_with_zero (d : list string) :
  sum_list_with (λ _ : string, 0) d = 0.
Proof. induction d as [|s d IH]; simpl; [done|exact IH]. Qed.

Lemma sum_list_with_plus (f g : string → nat) (d : list string) :
  sum_list_with (λ s, f s + g s) d = sum_list_with f d + sum_list_with g d.
Proof. induction d as [|s d IH]; simpl; [done|]. rewrite IH. lia. Qed.

Lemma sum_list_with_ext (f g : string → nat) (d : list string) :
  (∀ s, s ∈ d → f s = g s) → sum_list_with f d = sum_list_with g d.
Proof.
  induction d as [|s d IH]; intros Hfg; simpl; [done|].
  rewrite (Hfg s) by by left. rewrite IH; [done|].
  intros s' Hs'. apply Hfg. by right.
Qed.

(** A list without repetition holds a given string once or not at all. *)
Lemma sum_list_with_indicator (x : string) (d : list string) :
  NoDup d →
  sum_list_with (λ s, if decide (x = s) then 1 else 0) d
  = if decide (x ∈ d) then 1 else 0.
Proof.
  induction 1 as [|s d Hs Hd IH]; simpl; [done|].
  rewrite IH. destruct (decide (x = s)) as [->|Hxs].
  - rewrite (decide_False (P:=s ∈ d)) by done.
    by rewrite decide_True by by left.
  - destruct (decide (x ∈ d)) as [Hx|Hx].
    + by rewrite decide_True by by right.
    + rewrite decide_False; [done|]. rewrite not_elem_of_cons. done.
Qed.

Lemma occurrences_cons (s x : string) (l : list string) :
  occurrences s (x :: l) = (if decide (x = s) then 1 else 0) + occurrences s l.
Proof.
  unfold occurrences. destruct (decide (x = s)) as [Hx|Hx].
  - by rewrite filter_cons_True.
  - by rewrite filter_cons_False.
Qed.

(** Counting a list entry by entry, or string by string with repetition. *)
Lemma length_by_occurrences (l d : list string) :
  NoDup d → (∀ x, x ∈ l → x ∈ d) →
  length l = sum_list_with (λ s, occurrences s l) d.
Proof.
  intros Hd. induction l as [|x l IH]; intros Hin; simpl.
  - by rewrite sum_list_with_zero.
  - rewrite (sum_list_with_ext _
               (λ s, (if decide (x = s) then 1 else 0) + occurrences s l))
      by (intros s _; apply occurrences_cons).
    rewrite sum_list_with_plus, sum_list_with_indicator by done.
    rewrite decide_True by (apply Hin; by left).
    rewrite <- IH; [done|]. intros y Hy. apply Hin. by right.
Qed.

Lemma occurrences_filter (P : string → Prop) `{∀ x, Decision (P x)}
    (s : string) (l : list string) :
  P s → occurrences s (filter P l) = occurrences s l.
Proof.
  intros Hs. unfold occurrences. rewrite list_filter_filter.
  f_equal. apply list_filter_iff. intros x. split; [tauto|].
  intros ->. done.
Qed.

(** What the filter of the scoring step counts: every shared string, as
    often as the subject's list holds it. *)
Lemma overlap_with_repetition (candidateInterests subjectInterests : list string) :
  length (filter (λ interest, interest ∈ candidateInterests) subjectInterests)
  = sum_list_with (λ interest, occurrences interest subjectInterests)
      (sharedInterests candidateInterests subjectInterests).
Proof.
  unfold sharedInterests.
  rewrite (length_by_occurrences _
             (remove_dups
                (filter (λ interest, interest ∈ candidateInterests) subjectInterests))).
  - apply sum_list_with_ext. intros s Hs.
    apply elem_of_remove_dups, list_elem_of_filter in Hs as [Hs _].
    by apply occurrences_filter.
  - apply NoDup_remove_dups.
  - intros x Hx. by apply elem_of_remove_dups.
Qed.

(** The shared strings are the set intersection, each listed once. *)
Lemma length_sharedInterests (candidateInterests subjectInterests : list string) :
  length (sharedInterests candidateInterests subjectInterests)
  = interestOverlap candidateInterests subjectInterests.
Proof.
  unfold sharedInterests, interestOverlap.
  rewrite <- (size_list_to_set (C:=gset string)) by apply NoDup_remove_dups.
  f_equal. apply set_eq. intros x.
  rewrite elem_of_list_to_set, elem_of_remove_dups, list_elem_of_filter,
    elem_of_intersection, !elem_of_list_to_set. done.
Qed.

(** C3, as the code has it.  [mutualInterests] of every scored candidate
    counts every string of the set intersection of the candidate's and the
    subject's interests as many times as the subject's own list holds it,
    however often the candidate's list holds it.  Hence for a subject whose
    own interests list holds no string twice it is the size of the set
    intersection. *)
Theorem recommendations_interest_overlap (w : World) (userId : ObjectId) (subject : User) :
  Mongoose.lookupId userId (docs w) = Some subject →
  ∃ recs w',
    getRecommendations userId w = (Json recs, w')
    ∧ ∀ rec, rec ∈ recs →
        let shared :=
          sharedInterests (interests (doc (user rec))) (interests subject) in
        mutualInterests rec
        = sum_list_with (λ interest, occurrences interest (interests subject)) shared
        ∧ length shared
          = interestOverlap (interests (doc (user rec))) (interests subject)
        ∧ (NoDup (interests subject) →
           mutualInterests rec
           = interestOverlap (interests (doc (user rec))) (interests subject)).
Proof.
  intros Hsubject.
  destruct (getRecommendations_run w userId subject Hsubject)
    as (pool & w' & Hrun & _ & _).
  eexists _, w'. split; [exact Hrun|].
  intros rec (p & _ & -> & _)%elem_of_rank.
  rewrite mutualInterests_scoreOf. simpl.
  split; [apply overlap_with_repetition|].
  split; [apply length_sharedInterests|].
  intros Hdistinct. by apply overlap_of_distinct.
Qed.

Lemma recommendations_interest_overlap_witness :
  ∃ recs w',
    getRecommendations "d1d1d1d1d1d1d1d1d1d1d1d1" Demo.repeated = (Json recs, w')
    ∧ ∀ rec, rec ∈ recs →
        let shared :=
          sharedInterests (interests (doc (user rec))) (interests Demo.dan) in
        mutualInterests rec
        = sum_list_with (λ interest, occurrences interest (interests Demo.dan)) shared
        ∧ length shared
          = interestOverlap (interests (doc (user rec))) (interests Demo.dan)
        ∧ (NoDup (interests Demo.dan) →
           mutualInterests rec
           = interestOverlap (interests (doc (user rec))) (interests Demo.dan)).
Proof.
  apply (recommendations_interest_overlap Demo.repeated
           "d1d1d1d1d1d1d1d1d1d1d1d1" Demo.dan).
  reflexivity.
Defined.

(** C3, as the specification words it, fails: dan registered the interest
    "chess" twice and eve once; eve is scored with [mutualInterests = 2]
    although the two interest sets share one string. *)
Lemma recommendations_interest_repeated :
  ∃ rec w',
    getRecommendations "d1d1d1d1d1d1d1d1d1d1d1d1" Demo.repeated = (Json [rec], w')
    ∧ doc (user rec) = Demo.eve
    ∧ mutualInterests rec = 2
    ∧ interestOverlap (interests (doc (user rec))) (interests Demo.dan) = 1.
Proof.
  eexists _, _. split; [reflexivity|]. simpl.
  split; [reflexivity|]. split; [reflexivity|]. vm_compute. reflexivity.
Qed.

(** ** The candidate pool is not deduplicated by identifier *)

(** The objects of a query result have consecutive, hence distinct,
    identities. *)
Lemma hydrate_NoDup (db : list User) (n : nat) (l : list User) :
  NoDup (obj <$> Mongoose.hydrate db n l).
Proof. rewrite hydrate_obj. apply NoDup_seq. Qed.

(** In every run the two pools hold pairwise distinct objects, so the [Set]
    built from them removes nothing. *)
Lemma gathered_pools_kept (excludeIds friendIds : list ObjectId) (user : User)
    (w w1 w2 : World) (similarInterestsUsers mutualFriendsUsers : list Hydrated) :
  gatherSimilarInterests excludeIds user w = (Returned similarInterestsUsers, w1) →
  gatherMutualFriends excludeIds friendIds w1 = (Returned mutualFriendsUsers, w2) →
  JS.spreadSet [] (similarInterestsUsers ++ mutualFriendsUsers)
  = similarInterestsUsers ++ mutualFriendsUsers.
Proof.
  intros Hsimilar Hmutual.
  assert (NoDup (obj <$> similarInterestsUsers)
          ∧ ∀ x, x ∈ obj <$> similarInterestsUsers → x < nextObj w1) as [Hnd1 Hlt].
  { unfold gatherSimilarInterests, Mongoose.findPopulateFriends, mret, Async_ret in Hsimilar.
    case_decide; simplify_eq/=.
    - split; [apply hydrate_NoDup|].
      intros x. rewrite hydrate_obj, elem_of_seq. lia.
    - split; [constructor|by intros x ?%elem_of_nil]. }
  assert (NoDup (obj <$> mutualFriendsUsers)
          ∧ ∀ x, x ∈ obj <$> mutualFriendsUsers → nextObj w1 ≤ x) as [Hnd2 Hge].
  { unfold gatherMutualFriends, mbind, Async_bind, Mongoose.findPopulateFriends,
      mret, Async_ret in Hmutual.
    case_decide; simplify_eq/=.
    - split.
      + eapply sublist_NoDup; [apply hydrate_NoDup|].
        apply fmap_sublist, sublist_filter.
      + intros x Hx. eapply elem_of_sublist in Hx;
          [|apply fmap_sublist, sublist_filter].
        rewrite hydrate_obj, elem_of_seq in Hx. lia.
    - split; [constructor|by intros x ?%elem_of_nil]. }
  apply spreadSet_fresh; [|by intros x _ ?%elem_of_nil].
  rewrite fmap_app. apply NoDup_app. split; [done|]. split; [|done].
  intros x Hx1 Hx2. specialize (Hlt x Hx1). specialize (Hge x Hx2). lia.
Qed.

(** C2 fails on the code.  bob shares an interest and a friend with ann, so
    both queries return him, as two objects; the [Set] keeps both and the
    output lists bob twice, scored twice. *)
Theorem recommendations_duplicate_candidate :
  ∃ first second w',
    getRecommendations "a1a1a1a1a1a1a1a1a1a1a1a1" Demo.world = (Json [first; second], w')
    ∧ doc (user first) = Demo.bob
    ∧ doc (user second) = Demo.bob
    ∧ obj (user first) ≠ obj (user second)
    ∧ score first = 3 ∧ score second = 3.
Proof.
  eexists _, _, _. split; [reflexivity|]. simpl.
  repeat split; [lia].
Qed.

(** ** GET /search *)

(** What a [findById] does: it answers with the stored document or [null],
    or it throws, and then only on a text that is no [ObjectId]. *)
Lemma findById_cases (i : ObjectId) (w : World) :
  Mongoose.findById i w
    = (Returned (Mongoose.lookupId i (docs w)), Mongoose.logCall (CallFindById i) w)
  ∨ (Mongoose.lookupId i (docs w) = None ∧ isObjectIdText i = false
     ∧ Mongoose.findById i w = (Thrown, w)).
Proof.
  unfold Mongoose.findById.
  destruct (Mongoose.lookupId i (docs w)); [by left|].
  destruct (isObjectIdText i); [by left|by right].
Qed.

(** C10. Searching never returns the requesting user and never more than
    ten results; with the [username] parameter absent or empty the answer is
    the empty list and the directory is not queried. *)
Theorem search_contract (regex : string → string → option (string → bool))
    (userId : ObjectId) (queryUsername : option string) (w : World) :
  (∀ results w',
      getSearch regex userId queryUsername w = (Json results, w') →
      length results ≤ 10 ∧ ∀ e, e ∈ results → _id (found e) ≠ userId)
  ∧ (queryUsername = None ∨ queryUsername = Some "" →
     getSearch regex userId queryUsername w = (Json [], w)).
Proof.
  split.
  - intros results w'.
    unfold getSearch, tryCatch, searchBody, mbind, Async_bind.
    destruct queryUsername as [[|c term]|]; simpl;
      try (intros [= <- _]; split; [simpl; lia|by intros e ?%elem_of_nil]).
    destruct (findById_cases userId w) as [->|(_ & _ & ->)]; [|done].
    unfold Mongoose.find, throw.
    destruct (regex _ _) as [test|]; simpl; [|done].
    set (hits := filter _ (docs w)).
    assert (∀ u, u ∈ JS.slice0 10 (Mongoose.selectMinusPassword <$> hits) →
                 _id u ≠ userId) as Hother.
    { intros u (i & Hi & _)%elem_of_take.
      apply list_elem_of_lookup_2, list_elem_of_fmap in Hi as (v & -> & Hv).
      unfold hits in Hv.
      destruct (proj1 (list_elem_of_filter _ _ _) Hv) as [[_ Hne] _]. exact Hne. }
    assert (length (JS.slice0 10 (Mongoose.selectMinusPassword <$> hits)) ≤ 10) as Hlimit
      by (unfold JS.slice0; rewrite length_take; lia).
    destruct (JS.slice0 10 (Mongoose.selectMinusPassword <$> hits)) as [|u users] eqn:Husers.
    + simpl. intros [= <- _]. split; [simpl; lia|by intros e ?%elem_of_nil].
    + simpl. destruct (Mongoose.lookupId userId (docs w)) as [currentUser|]; simpl; [|done].
      intros [= <- _]. split; [simpl in *; rewrite length_fmap; lia|].
      intros e He. change (e ∈ enhance currentUser <$> u :: users) in He.
      apply list_elem_of_fmap in He as (v & -> & Hv). simpl. by apply Hother.
  - intros [->| ->]; reflexivity.
Qed.

Lemma search_contract_witness :
  (∀ results w',
      getSearch Demo.literalPrefix "a1a1a1a1a1a1a1a1a1a1a1a1" (Some "b") Demo.world = (Json results, w') →
      length results ≤ 10 ∧ ∀ e, e ∈ results → _id (found e) ≠ "a1a1a1a1a1a1a1a1a1a1a1a1")
  ∧ (Some "b" = None ∨ Some "b" = Some "" →
     getSearch Demo.literalPrefix "a1a1a1a1a1a1a1a1a1a1a1a1" (Some "b") Demo.world = (Json [], Demo.world)).
Proof. exact (search_contract Demo.literalPrefix "a1a1a1a1a1a1a1a1a1a1a1a1" (Some "b") Demo.world). Defined.

(** ** The specification's scenarios, run *)

(** One shared interest and no friends: the candidate without the interest
    is not listed. *)
Example scenario_shared_interest :
  (getRecommendations "5e5e5e5e5e5e5e5e5e5e5e5e"
     (mkWorld [mkUser "5e5e5e5e5e5e5e5e5e5e5e5e" "sue" (Some "#") ["chess"] [] [] [] 0;
               mkUser "b1b1b1b1b1b1b1b1b1b1b1b1" "bob" (Some "#") ["chess"] [] [] [] 0;
               mkUser "c1c1c1c1c1c1c1c1c1c1c1c1" "cat" (Some "#") [] [] [] [] 0] 0 [])).1
  = Json [{| user :=
               mkHydrated 0
                 (mkUser "b1b1b1b1b1b1b1b1b1b1b1b1" "bob" (Some "#") ["chess"] [] [] [] 0) [];
             mutualFriends := 0; mutualInterests := 1; score := 1 |}].
Proof. reflexivity. Qed.

(** One mutual friend against two shared interests: both score 2, and the
    order is the order of gathering, the interest pool first. *)
Example scenario_tie :
  (λ rec, (_id (doc (user rec)), mutualFriends rec, mutualInterests rec, score rec))
    <$> match (getRecommendations "5e5e5e5e5e5e5e5e5e5e5e5e"
                 (mkWorld
                    [mkUser "5e5e5e5e5e5e5e5e5e5e5e5e" "sue" (Some "#") ["chess"; "go"]
                       ["f1f1f1f1f1f1f1f1f1f1f1f1"; "f2f2f2f2f2f2f2f2f2f2f2f2"] [] [] 0;
                     mkUser "f1f1f1f1f1f1f1f1f1f1f1f1" "fay" (Some "#") []
                       ["5e5e5e5e5e5e5e5e5e5e5e5e"; "d1d1d1d1d1d1d1d1d1d1d1d1"] [] [] 0;
                     mkUser "f2f2f2f2f2f2f2f2f2f2f2f2" "flo" (Some "#") []
                       ["5e5e5e5e5e5e5e5e5e5e5e5e"] [] [] 0;
                     mkUser "d1d1d1d1d1d1d1d1d1d1d1d1" "dan" (Some "#") []
                       ["f1f1f1f1f1f1f1f1f1f1f1f1"] [] [] 0;
                     mkUser "e1e1e1e1e1e1e1e1e1e1e1e1" "eve" (Some "#") ["go"; "chess"]
                       [] [] [] 0]
                    0 [])).1 with
        | Json recs => recs
        | Status _ _ => []
        end
  = [("e1e1e1e1e1e1e1e1e1e1e1e1", 0, 2, 2); ("d1d1d1d1d1d1d1d1d1d1d1d1", 1, 0, 2)].
Proof. reflexivity. Qed.

(** Searching "b" as ann finds bob alone; searching with no parameter asks
    the directory nothing. *)
Example scenario_search :
  (found <$> match (getSearch Demo.literalPrefix "a1a1a1a1a1a1a1a1a1a1a1a1" (Some "b") Demo.world).1 with
             | Json results => results
             | Status _ _ => []
             end)
  = [Mongoose.selectMinusPassword Demo.bob]
  ∧ calls (getSearch Demo.literalPrefix "a1a1a1a1a1a1a1a1a1a1a1a1" (Some "b") Demo.world).2
    = [CallFindById "a1a1a1a1a1a1a1a1a1a1a1a1"; CallFind]
  ∧ calls (getSearch Demo.literalPrefix "a1a1a1a1a1a1a1a1a1a1a1a1" None Demo.world).2 = [].
Proof. repeat split. Qed.

(** ** The routes that only read *)

Lemma readOnly_ret {A : Type} (a : A) : readOnly (mret a).
Proof. by intros w. Qed.

Lemma readOnly_throw {A : Type} : readOnly (@throw A).
Proof. by intros w. Qed.

Lemma readOnly_bind {A B : Type} (m : Async A) (k : A → Async B) :
  readOnly m → (∀ a, readOnly (k a)) → readOnly (m ≫= k).
Proof.
  intros Hm Hk w. unfold mbind, Async_bind. specialize (Hm w).
  destruct (m w) as [[a|] w1]; simpl in *; [|done].
  by rewrite Hk.
Qed.

Lemma readOnly_findById (i : ObjectId) : readOnly (Mongoose.findById i).
Proof. intros w. by destruct (findById_cases i w) as [->|(_ & _ & ->)]. Qed.

Lemma readOnly_populate (ids : list ObjectId) : readOnly (Mongoose.populate ids).
Proof. by intros w. Qed.

Lemma readOnly_find (P : User → Prop) `{∀ u, Decision (P u)} :
  readOnly (Mongoose.find P).
Proof. by intros w. Qed.

Lemma readOnly_findPopulateFriends (P : User → Prop) `{∀ u, Decision (P u)} :
  readOnly (Mongoose.findPopulateFriends P).
Proof. by intros w. Qed.

Lemma readOnly_tryCatch {A : Type} (body : Async (Response A)) (message : string)
    (w : World) :
  readOnly body → docs (tryCatch body message w).2 = docs w.
Proof.
  intros Hbody. unfold tryCatch. specialize (Hbody w).
  by destruct (body w) as [[r|] w1].
Qed.

Create HintDb readOnly.
#[local] Hint Resolve readOnly_ret readOnly_throw readOnly_findById
  readOnly_populate readOnly_find readOnly_findPopulateFriends : readOnly.

Ltac read_only :=
  repeat first
    [ apply readOnly_bind; [|intros ?]
    | match goal with |- readOnly (match ?x with _ => _ end) => destruct x end
    | solve [eauto with readOnly] ].

Lemma readOnly_recommendationsBody (userId : ObjectId) :
  readOnly (recommendationsBody userId).
Proof.
  unfold recommendationsBody, gatherSimilarInterests, gatherMutualFriends. read_only.
Qed.

Lemma readOnly_searchBody (regex : string → string → option (string → bool))
    (userId : ObjectId) (queryUsername : option string) :
  readOnly (searchBody regex userId queryUsername).
Proof.
  unfold searchBody. destruct queryUsername as [[|c term]|]; read_only.
Qed.

(** X11. The four GET routes of [routes/friends.js] never write: whatever the
    caller, the parameters and the reply, the collection is afterwards what
    it was. *)
Theorem get_routes_never_write (regex : string → string → option (string → bool))
    (userId : ObjectId) (queryUsername : option string) (w : World) :
  docs (getFriends userId w).2 = docs w
  ∧ docs (getPending userId w).2 = docs w
  ∧ docs (getSearch regex userId queryUsername w).2 = docs w
  ∧ docs (getRecommendations userId w).2 = docs w.
Proof.
  repeat split; apply readOnly_tryCatch.
  - unfold friendsBody. read_only.
  - unfold pendingBody. read_only.
  - apply readOnly_searchBody.
  - apply readOnly_recommendationsBody.
Qed.

(** X12. A caller whose identifier names no stored user gets a 500 from the
    friends list, the pending list and the recommendations. *)
Theorem unknown_caller_rejected (userId : ObjectId) (w : World) :
  Mongoose.lookupId userId (docs w) = None →
  (getFriends userId w).1 = Status 500 "Error fetching friends"
  ∧ (getPending userId w).1 = Status 500 "Error fetching pending friend requests"
  ∧ (getRecommendations userId w).1 = Status 500 "Error getting recommendations".
Proof.
  intros Hnone.
  unfold getFriends, getPending, getRecommendations, tryCatch, friendsBody,
    pendingBody, recommendationsBody, mbind, Async_bind, Mongoose.findById.
  simpl. rewrite Hnone. by destruct (isObjectIdText userId).
Qed.

Lemma unknown_caller_rejected_witness :
  (getFriends "000000000000000000000000" Demo.world).1 = Status 500 "Error fetching friends"
  ∧ (getPending "000000000000000000000000" Demo.world).1 = Status 500 "Error fetching pending friend requests"
  ∧ (getRecommendations "000000000000000000000000" Demo.world).1 = Status 500 "Error getting recommendations".
Proof. apply (unknown_caller_rejected "000000000000000000000000" Demo.world). reflexivity. Defined.

Lemma elem_of_populated_ids (db : list User) (ids : list ObjectId) (i : ObjectId) :
  i ∈ _id <$> Mongoose.populated db ids ↔ i ∈ ids ∧ is_Some (Mongoose.lookupId i db).
Proof.
  split; [|intros [? ?]; by apply populated_ids].
  intros (u & -> & Hu)%list_elem_of_fmap.
  apply list_elem_of_omap in Hu as (j & Hj & Hlookup).
  destruct (lookupId_Some _ _ _ Hlookup) as [<- _]. split; [done|by eexists].
Qed.

Lemma getFriends_run (w : World) (userId : ObjectId) (caller : User) :
  Mongoose.lookupId userId (docs w) = Some caller →
  ∃ w', getFriends userId w = (Json (Mongoose.populated (docs w) (friends caller)), w').
Proof.
  intros Hcaller.
  unfold getFriends, tryCatch, friendsBody, mbind, Async_bind, Mongoose.findById.
  simpl. rewrite Hcaller. by eexists.
Qed.

Lemma getPending_run (w : World) (userId : ObjectId) (caller : User) :
  Mongoose.lookupId userId (docs w) = Some caller →
  ∃ w', getPending userId w
        = (Json (Mongoose.populated (docs w) (pendingFriendRequests caller)), w').
Proof.
  intros Hcaller.
  unfold getPending, tryCatch, pendingBody, mbind, Async_bind, Mongoose.findById.
  simpl. rewrite Hcaller. by eexists.
Qed.

(** ** Saving a document *)

Lemma lookupId_updateId (i j : ObjectId) (f : User → User) (l : list User) :
  (∀ u, _id (f u) = _id u) →
  Mongoose.lookupId j (Mongoose.updateId i f l)
  = if decide (i = j) then f <$> Mongoose.lookupId j l else Mongoose.lookupId j l.
Proof.
  intros Hid. induction l as [|u l IH]; simpl; [by case_decide|].
  destruct (decide (_id u = i)) as [Hi|Hi]; simpl.
  - rewrite Hid. destruct (decide (_id u = j)) as [Hj|Hj]; case_decide; simpl; congruence.
  - destruct (decide (_id u = j)) as [Hj|Hj]; [|done].
    case_decide; simpl; congruence.
Qed.

Lemma sameProfile_refl (u : User) : sameProfile u u.
Proof. by repeat split. Qed.

Lemma sameProfile_trans (u1 u2 u3 : User) :
  sameProfile u1 u2 → sameProfile u2 u3 → sameProfile u1 u3.
Proof. unfold sameProfile. intuition congruence. Qed.

Lemma getPath_setPath (p q : Mongoose.Path) (l : list ObjectId) (u : User) :
  Mongoose.getPath q (Mongoose.setPath p l u)
  = if decide (q = p) then l else Mongoose.getPath q u.
Proof. destruct p, q; by case_decide. Qed.

Lemma sameProfile_setPath (p : Mongoose.Path) (l : list ObjectId) (u : User) :
  sameProfile u (Mongoose.setPath p l u).
Proof. destruct p; by repeat split. Qed.

Lemma getPath_applyChange (q : Mongoose.Path) (u : User) (c : Mongoose.Change) :
  Mongoose.getPath q (Mongoose.applyChange u c)
  = if decide (q = pathOf c) then
      match c with
      | Mongoose.Assign _ l => l
      | Mongoose.Push p i => Mongoose.getPath p u ++ [i]
      end
    else Mongoose.getPath q u.
Proof. destruct c; simpl; apply getPath_setPath. Qed.

Lemma sameProfile_applyChange (u : User) (c : Mongoose.Change) :
  sameProfile u (Mongoose.applyChange u c).
Proof. destruct c; apply sameProfile_setPath. Qed.

Lemma sameProfile_foldl (delta : list Mongoose.Change) (u : User) :
  sameProfile u (foldl Mongoose.applyChange u delta).
Proof.
  revert u. induction delta as [|c delta IH]; intros u; simpl.
  - apply sameProfile_refl.
  - eapply sameProfile_trans; [apply sameProfile_applyChange|apply IH].
Qed.

Lemma getPath_foldl_untouched (q : Mongoose.Path) (delta : list Mongoose.Change) (u : User) :
  q ∉ pathOf <$> delta →
  Mongoose.getPath q (foldl Mongoose.applyChange u delta) = Mongoose.getPath q u.
Proof.
  revert u. induction delta as [|c delta IH]; intros u; simpl; [done|].
  rewrite not_elem_of_cons. intros [Hc Hdelta].
  rewrite IH by done. rewrite getPath_applyChange. by rewrite decide_False.
Qed.

(** Documents with the same lists get the same lists from the same update. *)
Lemma getPath_foldl_agree (delta : list Mongoose.Change) (u1 u2 : User) :
  (∀ p, Mongoose.getPath p u1 = Mongoose.getPath p u2) →
  ∀ p, Mongoose.getPath p (foldl Mongoose.applyChange u1 delta)
       = Mongoose.getPath p (foldl Mongoose.applyChange u2 delta).
Proof.
  revert u1 u2. induction delta as [|c delta IH]; intros u1 u2 Hagree; simpl; [done|].
  apply IH. intros p. rewrite !getPath_applyChange.
  case_decide; [|done]. destruct c; [done|]. by rewrite Hagree.
Qed.

(** Leaving out the assignments that changed nothing sends the same lists,
    when no path is changed twice. *)
Lemma getPath_foldl_modified (fetched : User) (changes : list Mongoose.Change) (u : User) :
  NoDup (pathOf <$> changes) →
  (∀ c, c ∈ changes →
     Mongoose.getPath (pathOf c) u = Mongoose.getPath (pathOf c) fetched) →
  ∀ p, Mongoose.getPath p
         (foldl Mongoose.applyChange u
            (filter (λ c, Is_true (Mongoose.isModified fetched c)) changes))
       = Mongoose.getPath p (foldl Mongoose.applyChange u changes).
Proof.
  revert u. induction changes as [|c changes IH]; intros u Hpaths Hsame p; [done|].
  rewrite fmap_cons in Hpaths. apply NoDup_cons in Hpaths as [Hfresh Hpaths].
  destruct (decide (Is_true (Mongoose.isModified fetched c))) as [Hmod|Hmod].
  - rewrite filter_cons_True by done. simpl. apply IH; [done|].
    intros c' Hc'. rewrite getPath_applyChange, decide_False.
    + apply Hsame. by right.
    + intros Heq. apply Hfresh. rewrite <- Heq. apply list_elem_of_fmap. by exists c'.
  - rewrite filter_cons_False by done. simpl.
    rewrite IH; [|done|intros c' Hc'; apply Hsame; by right].
    apply getPath_foldl_agree. intros q. rewrite getPath_applyChange.
    case_decide as Hq; [|done]. subst q.
    destruct c as [q l|q x]; simpl in *; [|by destruct Hmod].
    pose proof (Hsame (Mongoose.Assign q l) ltac:(by left)) as Hq.
    simpl in Hq. rewrite Hq.
    destruct (decide (l = Mongoose.getPath q fetched)) as [->|Hne]; [done|].
    destruct Hmod. rewrite bool_decide_eq_false_2 by done. done.
Qed.

Lemma id_committed (delta : list Mongoose.Change) (u : User) :
  _id (Mongoose.incVersion (foldl Mongoose.applyChange u delta)) = _id u.
Proof. by destruct (sameProfile_foldl delta u) as [? _]. Qed.

(** A save of a copy that is still current goes through, and the stored
    document gets the lists of the copy as the route changed it. *)
Lemma save_current (fetched : User) (changes : list Mongoose.Change) (w : World) :
  Mongoose.lookupId (_id fetched) (docs w) = Some fetched →
  NoDup (pathOf <$> changes) →
  ∃ w' u',
    Mongoose.save fetched changes w = (Returned (), w')
    ∧ Mongoose.lookupId (_id fetched) (docs w') = Some u'
    ∧ (∀ i, i ≠ _id fetched →
         Mongoose.lookupId i (docs w') = Mongoose.lookupId i (docs w))
    ∧ sameProfile fetched u'
    ∧ ∀ p, Mongoose.getPath p u'
           = Mongoose.getPath p (foldl Mongoose.applyChange fetched changes).
Proof.
  intros Hstored Hpaths. unfold Mongoose.save.
  pose proof (getPath_foldl_modified fetched changes fetched Hpaths
                (λ _ _, eq_refl)) as Hlists.
  destruct (filter _ changes) as [|c delta] eqn:Hdelta.
  - exists w, fetched. split; [done|]. split; [done|]. split; [done|].
    split; [apply sameProfile_refl|]. intros p. by rewrite <- Hlists.
  - rewrite Hstored, Nat.eqb_refl, andb_false_r.
    eexists _, _. split; [reflexivity|]. simpl.
    split.
    { rewrite lookupId_updateId by (intros u0; apply (id_committed (c :: delta))).
      by rewrite decide_True, Hstored by done. }
    split.
    { intros i Hi. rewrite lookupId_updateId by (intros u0; apply (id_committed (c :: delta))).
      by rewrite decide_False by done. }
    split; [apply (sameProfile_foldl (c :: delta))|].
    intros p. rewrite <- Hlists. by destruct p.
Qed.

Lemma framed_refl (touched : ObjectId → Mongoose.Path → Prop) (db : list User) :
  framed touched db db.
Proof.
  intros i. destruct (Mongoose.lookupId i db); constructor.
  split; [apply sameProfile_refl|done].
Qed.

Lemma framed_trans (touched : ObjectId → Mongoose.Path → Prop) (db1 db2 db3 : list User) :
  framed touched db1 db2 → framed touched db2 db3 → framed touched db1 db3.
Proof.
  intros H12 H23 i. specialize (H12 i). specialize (H23 i).
  destruct H12 as [u1 u2 [Hp12 Hl12]|]; inversion H23 as [? u3 [Hp23 Hl23]|];
    simplify_eq; constructor.
  split; [by eapply sameProfile_trans|].
  intros p Hp. by rewrite Hl23, Hl12.
Qed.

Lemma framed_weaken (touched touched' : ObjectId → Mongoose.Path → Prop)
    (db db' : list User) :
  (∀ i p, touched i p → touched' i p) →
  framed touched db db' → framed touched' db db'.
Proof.
  intros Hsub Hframed i. destruct (Hframed i) as [u u' [Hp Hl]|]; constructor.
  split; [done|]. intros p Hp'. apply Hl. intros Ht. by apply Hp', Hsub.
Qed.

(** Whatever becomes of a save, it leaves every document stored, with its
    profile, and changes no list but the ones the route changed in the
    copy. *)
Lemma save_framed (fetched : User) (changes : list Mongoose.Change) (w : World)
    (r : Outcome unit) (w' : World) :
  Mongoose.save fetched changes w = (r, w') →
  framed (λ i p, i = _id fetched ∧ p ∈ pathOf <$> changes) (docs w) (docs w').
Proof.
  unfold Mongoose.save.
  destruct (filter _ changes) as [|c delta] eqn:Hdelta.
  { intros [= _ <-]. apply framed_refl. }
  destruct (Mongoose.lookupId (_id fetched) (docs w)) as [stored|] eqn:Hstored.
  2: { intros [= _ <-]. apply framed_refl. }
  destruct (_ && _).
  { intros [= _ <-]. apply framed_refl. }
  intros [= _ <-]. simpl. intros i.
  rewrite lookupId_updateId by (intros u0; apply (id_committed (c :: delta))).
  destruct (decide (_id fetched = i)) as [<-|Hi].
  - rewrite Hstored. constructor.
    split; [apply (sameProfile_foldl (c :: delta))|].
    intros p Hp.
    transitivity (Mongoose.getPath p (foldl Mongoose.applyChange stored (c :: delta)));
      [by destruct p|].
    apply getPath_foldl_untouched. intros Hin. apply Hp. split; [done|].
    apply list_elem_of_fmap in Hin as (c' & -> & Hc').
    apply list_elem_of_fmap. exists c'. split; [done|].
    rewrite <- Hdelta in Hc'. by apply list_elem_of_filter in Hc' as [_ ?].
  - destruct (Mongoose.lookupId i (docs w)); constructor.
    split; [apply sameProfile_refl|done].
Qed.

Lemma relisted_lookup (lists : ObjectId → User → Mongoose.Path → list ObjectId)
    (db db' : list User) (i : ObjectId) (u : User) :
  relisted lists db db' →
  Mongoose.lookupId i db = Some u →
  ∃ u',
    Mongoose.lookupId i db' = Some u'
    ∧ sameProfile u u'
    ∧ friends u' = lists i u Mongoose.PathFriends
    ∧ sentFriendRequests u' = lists i u Mongoose.PathSent
    ∧ pendingFriendRequests u' = lists i u Mongoose.PathPending.
Proof.
  intros Hrel Hu. specialize (Hrel i). rewrite Hu in Hrel.
  inversion Hrel as [? u' [Hp Hl] E1 E2|]. exists u'.
  split; [done|]. split; [done|].
  split; [apply (Hl Mongoose.PathFriends)|].
  split; [apply (Hl Mongoose.PathSent)|apply (Hl Mongoose.PathPending)].
Qed.


(** Two saves of current copies of two different documents. *)
Lemma save_both (first second : User) (changes1 changes2 : list Mongoose.Change)
    (w : World) :
  Mongoose.lookupId (_id first) (docs w) = Some first →
  Mongoose.lookupId (_id second) (docs w) = Some second →
  _id first ≠ _id second →
  NoDup (pathOf <$> changes1) → NoDup (pathOf <$> changes2) →
  ∃ w1 w2,
    Mongoose.save first changes1 w = (Returned (), w1)
    ∧ Mongoose.save second changes2 w1 = (Returned (), w2)
    ∧ relisted
        (λ i u p,
           if decide (i = _id first)
           then Mongoose.getPath p (foldl Mongoose.applyChange u changes1)
           else if decide (i = _id second)
           then Mongoose.getPath p (foldl Mongoose.applyChange u changes2)
           else Mongoose.getPath p u)
        (docs w) (docs w2).
Proof.
  intros Hfirst Hsecond Hne Hpaths1 Hpaths2.
  destruct (save_current first changes1 w Hfirst Hpaths1)
    as (w1 & first' & Hsave1 & Hfirst1 & Hothers1 & Hprofile1 & Hlists1).
  assert (Mongoose.lookupId (_id second) (docs w1) = Some second) as Hsecond1
    by (rewrite Hothers1 by done; exact Hsecond).
  destruct (save_current second changes2 w1 Hsecond1 Hpaths2)
    as (w2 & second' & Hsave2 & Hsecond2 & Hothers2 & Hprofile2 & Hlists2).
  exists w1, w2. split; [done|]. split; [done|].
  intros i.
  destruct (decide (i = _id first)) as [->|Hi1].
  - rewrite Hothers2, Hfirst1, Hfirst by done. constructor.
    split; [done|]. intros p. simpl. apply Hlists1.
  - destruct (decide (i = _id second)) as [->|Hi2].
    + rewrite Hsecond2, Hsecond. constructor.
      split; [done|]. intros p. simpl. apply Hlists2.
    + rewrite Hothers2, Hothers1 by done.
      destruct (Mongoose.lookupId i (docs w)); constructor.
      split; [apply sameProfile_refl|]. intros p. reflexivity.
Qed.

Lemma relisted_ext (lists lists' : ObjectId → User → Mongoose.Path → list ObjectId)
    (db db' : list User) :
  (∀ i u p, Mongoose.lookupId i db = Some u → lists i u p = lists' i u p) →
  relisted lists db db' → relisted lists' db db'.
Proof.
  intros Hext Hrel i. specialize (Hrel i).
  destruct (Mongoose.lookupId i db) as [u|] eqn:Hu;
    inversion Hrel as [? u' [Hp Hl]|]; constructor.
  split; [done|]. intros p. rewrite Hl. by apply Hext.
Qed.

(** ** POST /request/:userId *)

(** One request between two different stored users who are not friends. *)
Lemma postRequest_step (w : World) (userId paramUserId : ObjectId) (sender receiver : User) :
  Mongoose.lookupId userId (docs w) = Some sender →
  Mongoose.lookupId paramUserId (docs w) = Some receiver →
  userId ≠ paramUserId →
  paramUserId ∉ friends sender →
  ∃ w1,
    postRequest userId paramUserId w
    = (Json (replyFor (bool_decide (paramUserId ∈ sentFriendRequests sender))), w1)
    ∧ relisted
        (requestLists userId paramUserId
           (bool_decide (paramUserId ∈ sentFriendRequests sender)))
        (docs w) (docs w1).
Proof.
  intros Hsender Hreceiver Hne Hfriend.
  destruct (lookupId_Some _ _ _ Hsender) as [Hsid _].
  destruct (lookupId_Some _ _ _ Hreceiver) as [Hrid _].
  subst userId paramUserId.
  unfold postRequest, tryCatch, requestBody, mbind, Async_bind, Mongoose.findById.
  simpl. rewrite Hsender. simpl. rewrite Hreceiver. simpl.
  rewrite decide_False by done.
  destruct (decide (_id receiver ∈ sentFriendRequests sender)) as [Hex|Hex].
  - rewrite (bool_decide_eq_true_2 _ Hex).
    match goal with
    | |- context [Mongoose.save sender ?c1 ?w0] =>
        destruct (save_both sender receiver c1
                    [Mongoose.Assign Mongoose.PathPending
                       (filter (λ id, id ≠ _id sender) (pendingFriendRequests receiver))]
                    w0)
          as (w1 & w2 & Hsave1 & Hsave2 & Hrel);
          [done|done|done|apply NoDup_singleton|apply NoDup_singleton|]
    end.
    rewrite Hsave1, Hsave2. eexists. split; [reflexivity|].
    revert Hrel. apply relisted_ext. intros i u p Hu. simpl in Hu.
    unfold requestLists.
    destruct (decide (i = _id sender)) as [->|Hi1];
      [|destruct (decide (i = _id receiver)) as [->|Hi2]];
      simplify_eq; destruct p; simpl; rewrite ?decide_False by done; reflexivity.
  - rewrite (bool_decide_eq_false_2 _ Hex).
    match goal with
    | |- context [Mongoose.save receiver ?c1 ?w0] =>
        destruct (save_both receiver sender c1
                    [Mongoose.Push Mongoose.PathSent (_id receiver)] w0)
          as (w1 & w2 & Hsave1 & Hsave2 & Hrel);
          [done|done|done|apply NoDup_singleton|apply NoDup_singleton|]
    end.
    rewrite Hsave1, Hsave2. eexists. split; [reflexivity|].
    revert Hrel. apply relisted_ext. intros i u p Hu. simpl in Hu.
    unfold requestLists.
    destruct (decide (i = _id receiver)) as [->|Hi1];
      [|destruct (decide (i = _id sender)) as [->|Hi2]];
      simplify_eq; destruct p; simpl; rewrite ?decide_False by done; reflexivity.
Qed.

(** The ways a run of the request route can go. *)
Lemma postRequest_cases (w : World) (userId paramUserId : ObjectId) :
  ∃ reply w',
    postRequest userId paramUserId w = (reply, w')
    ∧ ((reply = Status 500 "Error managing friend request"
        ∧ docs w' = docs w
        ∧ ((Mongoose.lookupId userId (docs w) = None
            ∧ (isObjectIdText userId = false
               ∨ is_Some (Mongoose.lookupId paramUserId (docs w))))
           ∨ (Mongoose.lookupId paramUserId (docs w) = None
              ∧ isObjectIdText paramUserId = false)))
       ∨ (reply = Status 404 "User not found"
          ∧ docs w' = docs w
          ∧ (is_Some (Mongoose.lookupId userId (docs w)) ∨ isObjectIdText userId = true)
          ∧ Mongoose.lookupId paramUserId (docs w) = None
          ∧ isObjectIdText paramUserId = true)
       ∨ (∃ sender receiver,
            Mongoose.lookupId userId (docs w) = Some sender
            ∧ Mongoose.lookupId paramUserId (docs w) = Some receiver
            ∧ paramUserId ∈ friends sender
            ∧ reply = Status 400 "Already friends"
            ∧ docs w' = docs w)
       ∨ (∃ sender receiver,
            Mongoose.lookupId userId (docs w) = Some sender
            ∧ Mongoose.lookupId paramUserId (docs w) = Some receiver
            ∧ (paramUserId ∉ friends sender)
            ∧ (reply = Json (replyFor (bool_decide (paramUserId ∈ sentFriendRequests sender)))
               ∨ reply = Status 500 "Error managing friend request")
            ∧ framed (λ i p, (i = userId ∧ p = Mongoose.PathSent)
                             ∨ (i = paramUserId ∧ p = Mongoose.PathPending))
                (docs w) (docs w'))).
Proof.
  unfold postRequest, tryCatch, requestBody, mbind, Async_bind, Mongoose.findById.
  simpl.
  destruct (Mongoose.lookupId userId (docs w)) as [sender|] eqn:Hsender;
    [|destruct (isObjectIdText userId) eqn:Hcaller]; simpl;
    (destruct (Mongoose.lookupId paramUserId (docs w)) as [receiver|] eqn:Hreceiver;
     [|destruct (isObjectIdText paramUserId) eqn:Hparam]); simpl.
  2-9: eexists _, _; (split; [reflexivity|]); simpl.
  2: { right. left. split; [done|]. split; [done|]. split; [left; by eexists|done]. }
  2: { left. split; [done|]. split; [done|]. by right. }
  2: { left. split; [done|]. split; [done|]. left. split; [done|]. right. by eexists. }
  2: { right. left. split; [done|]. split; [done|]. split; [by right|done]. }
  2: { left. split; [done|]. split; [done|]. by right. }
  2-4: left; (split; [done|]); (split; [done|]); left; (split; [done|]); by left.
  destruct (lookupId_Some _ _ _ Hsender) as [<- _].
  destruct (lookupId_Some _ _ _ Hreceiver) as [<- _].
  destruct (decide (_id receiver ∈ friends sender)) as [Hfriend|Hfriend].
  { eexists _, _. split; [reflexivity|]. right. right. left.
    by exists sender, receiver. }
  assert (∀ w0 w1 w2 : World,
            docs w0 = docs w →
            framed (λ i p, i = _id sender ∧ p ∈ [Mongoose.PathSent]) (docs w0) (docs w1)
            ∨ framed (λ i p, i = _id receiver ∧ p ∈ [Mongoose.PathPending])
                (docs w0) (docs w1) →
            w2 = w1
            ∨ framed (λ i p, i = _id sender ∧ p ∈ [Mongoose.PathSent]) (docs w1) (docs w2)
            ∨ framed (λ i p, i = _id receiver ∧ p ∈ [Mongoose.PathPending])
                (docs w1) (docs w2) →
            framed (λ i p, (i = _id sender ∧ p = Mongoose.PathSent)
                           ∨ (i = _id receiver ∧ p = Mongoose.PathPending))
              (docs w) (docs w2)) as Hframed.
  { intros w0 w1 w2 <- H1 H2.
    apply (framed_trans _ _ (docs w1)).
    - destruct H1 as [H1|H1]; revert H1; apply framed_weaken;
        intros i p [-> ->%list_elem_of_singleton]; tauto.
    - destruct H2 as [->|[H2|H2]]; [apply framed_refl|..]; revert H2;
        apply framed_weaken; intros i p [-> ->%list_elem_of_singleton]; tauto. }
  destruct (decide (_id receiver ∈ sentFriendRequests sender)) as [Hex|Hex].
  - destruct (Mongoose.save sender _ _) as [[[]|] w1] eqn:Hsave1;
      [destruct (Mongoose.save receiver _ _) as [[[]|] w2] eqn:Hsave2|];
      (eexists _, _; split; [reflexivity|]); right; right; right;
      exists sender, receiver; (split; [done|]); (split; [done|]); (split; [done|]).
    + split; [left; by rewrite (bool_decide_eq_true_2 _ Hex)|].
      apply save_framed in Hsave1, Hsave2. simpl in Hsave1, Hsave2.
      apply (Hframed w w1 w2 eq_refl); [left; exact Hsave1|right; right; exact Hsave2].
    + split; [by right|].
      apply save_framed in Hsave1, Hsave2. simpl in Hsave1, Hsave2.
      apply (Hframed w w1 w2 eq_refl); [left; exact Hsave1|right; right; exact Hsave2].
    + split; [by right|].
      apply save_framed in Hsave1. simpl in Hsave1.
      apply (Hframed w w1 w1 eq_refl); [left; exact Hsave1|by left].
  - destruct (Mongoose.save receiver _ _) as [[[]|] w1] eqn:Hsave1;
      [destruct (Mongoose.save sender _ _) as [[[]|] w2] eqn:Hsave2|];
      (eexists _, _; split; [reflexivity|]); right; right; right;
      exists sender, receiver; (split; [done|]); (split; [done|]); (split; [done|]).
    + split; [left; by rewrite (bool_decide_eq_false_2 _ Hex)|].
      apply save_framed in Hsave1, Hsave2. simpl in Hsave1, Hsave2.
      apply (Hframed w w1 w2 eq_refl); [right; exact Hsave1|right; left; exact Hsave2].
    + split; [by right|].
      apply save_framed in Hsave1, Hsave2. simpl in Hsave1, Hsave2.
      apply (Hframed w w1 w2 eq_refl); [right; exact Hsave1|right; left; exact Hsave2].
    + split; [by right|].
      apply save_framed in Hsave1. simpl in Hsave1.
      apply (Hframed w w1 w1 eq_refl); [right; exact Hsave1|by left].
Qed.









(** ** POST /accept/:userId *)

(** One acceptance between two different stored users. *)
Lemma postAccept_step (w : World) (userId paramUserId : ObjectId) (receiver sender : User) :
  Mongoose.lookupId userId (docs w) = Some receiver →
  Mongoose.lookupId paramUserId (docs w) = Some sender →
  userId ≠ paramUserId →
  ∃ w1,
    postAccept userId paramUserId w = (Json "Friend request accepted", w1)
    ∧ relisted (acceptLists userId paramUserId) (docs w) (docs w1).
Proof.
  intros Hreceiver Hsender Hne.
  destruct (lookupId_Some _ _ _ Hsender) as [Hsid _].
  destruct (lookupId_Some _ _ _ Hreceiver) as [Hrid _].
  subst userId paramUserId.
  unfold postAccept, tryCatch, acceptBody, mbind, Async_bind, Mongoose.findById.
  simpl. rewrite Hreceiver. simpl. rewrite Hsender. simpl.
  match goal with
  | |- context [Mongoose.save receiver ?c1 ?w0] =>
      destruct (save_both receiver sender c1
                  [Mongoose.Assign Mongoose.PathSent
                     (filter (λ id, id ≠ _id receiver) (sentFriendRequests sender));
                   Mongoose.Push Mongoose.PathFriends (_id receiver)]
                  w0)
        as (w1 & w2 & Hsave1 & Hsave2 & Hrel);
        [done|done|done| | |]
  end.
  1-2: apply (bool_decide_unpack _); vm_compute; exact I.
  rewrite Hsave1, Hsave2. eexists. split; [reflexivity|].
  revert Hrel. apply relisted_ext. intros i u p Hu. simpl in Hu.
  unfold acceptLists.
  destruct (decide (i = _id receiver)) as [->|Hi1];
    [|destruct (decide (i = _id sender)) as [->|Hi2]];
    simplify_eq; destruct p; simpl; rewrite ?decide_False by done; reflexivity.
Qed.




(** X4. After an acceptance between two different stored users each is in
    the other's friends list, the sender is no longer in the caller's pending
    list and the caller no longer in the sender's sent list, however often
    they were listed. *)
Theorem accept_settles_request (w : World) (userId paramUserId : ObjectId)
    (receiver sender : User) :
  Mongoose.lookupId userId (docs w) = Some receiver →
  Mongoose.lookupId paramUserId (docs w) = Some sender →
  userId ≠ paramUserId →
  ∃ w' receiver' sender',
    postAccept userId paramUserId w = (Json "Friend request accepted", w')
    ∧ Mongoose.lookupId userId (docs w') = Some receiver'
    ∧ Mongoose.lookupId paramUserId (docs w') = Some sender'
    ∧ paramUserId ∈ friends receiver'
    ∧ userId ∈ friends sender'
    ∧ (paramUserId ∉ pendingFriendRequests receiver')
    ∧ (userId ∉ sentFriendRequests sender').
Proof.
  intros Hreceiver Hsender Hne.
  destruct (postAccept_step w userId paramUserId receiver sender)
    as (w' & Hrun & Hrel); [done..|].
  destruct (relisted_lookup _ _ _ userId receiver Hrel Hreceiver)
    as (receiver' & Hreceiver' & _ & Hfr & _ & Hpr).
  destruct (relisted_lookup _ _ _ paramUserId sender Hrel Hsender)
    as (sender' & Hsender' & _ & Hfs & Hss & _).
  simpl in Hfr, Hpr, Hfs, Hss.
  rewrite decide_True in Hfr by done. rewrite decide_True in Hpr by done.
  rewrite decide_False, decide_True in Hfs by done.
  rewrite decide_True in Hss by done.
  exists w', receiver', sender'.
  repeat (split; [done|]). rewrite Hfr, Hfs, Hpr, Hss.
  rewrite !elem_of_app, !list_elem_of_filter, !list_elem_of_singleton.
  repeat split; tauto.
Qed.

Lemma accept_settles_request_witness :
  ∃ w' receiver' sender',
    postAccept "c1c1c1c1c1c1c1c1c1c1c1c1" "a1a1a1a1a1a1a1a1a1a1a1a1" Demo.world
    = (Json "Friend request accepted", w')
    ∧ Mongoose.lookupId "c1c1c1c1c1c1c1c1c1c1c1c1" (docs w') = Some receiver'
    ∧ Mongoose.lookupId "a1a1a1a1a1a1a1a1a1a1a1a1" (docs w') = Some sender'
    ∧ "a1a1a1a1a1a1a1a1a1a1a1a1" ∈ friends receiver'
    ∧ "c1c1c1c1c1c1c1c1c1c1c1c1" ∈ friends sender'
    ∧ ("a1a1a1a1a1a1a1a1a1a1a1a1" ∉ pendingFriendRequests receiver')
    ∧ ("c1c1c1c1c1c1c1c1c1c1c1c1" ∉ sentFriendRequests sender').
Proof.
  apply (accept_settles_request Demo.world
           "c1c1c1c1c1c1c1c1c1c1c1c1" "a1a1a1a1a1a1a1a1a1a1a1a1" Demo.cat Demo.ann).
  - reflexivity.
  - reflexivity.
  - apply (bool_decide_unpack ("c1c1c1c1c1c1c1c1c1c1c1c1" ≠ "a1a1a1a1a1a1a1a1a1a1a1a1")).
    vm_compute. exact I.
Defined.





Lemma postRequest_friends (w : World) (userId paramUserId : ObjectId) (sender receiver : User) :
  Mongoose.lookupId userId (docs w) = Some sender →
  Mongoose.lookupId paramUserId (docs w) = Some receiver →
  paramUserId ∈ friends sender →
  ∃ w', postRequest userId paramUserId w = (Status 400 "Already friends", w')
        ∧ docs w' = docs w.
Proof.
  intros Hsender Hreceiver Hfriend.
  destruct (postRequest_cases w userId paramUserId)
    as (reply & w' & Hrun
        & [(_ & _ & [[? _]|[? _]])
          |[(_ & _ & _ & ? & _)
           |[(? & ? & _ & _ & _ & -> & Hdocs)
            |(sender' & ? & ? & _ & ? & _)]]]); simplify_eq; try done.
  by exists w'.
Qed.

(** X5. Request, then acceptance by the receiver, makes two different users
    friends: from then on a request between them, either way, answers
    400. *)
Theorem request_accept_then_friends (w : World) (senderId receiverId : ObjectId)
    (sender receiver : User) :
  Mongoose.lookupId senderId (docs w) = Some sender →
  Mongoose.lookupId receiverId (docs w) = Some receiver →
  senderId ≠ receiverId →
  receiverId ∉ friends sender →
  receiverId ∉ sentFriendRequests sender →
  ∃ w1 w2 w3 w4,
    postRequest senderId receiverId w
    = (Json {| message := "Friend request sent"; status := "requested" |}, w1)
    ∧ postAccept receiverId senderId w1 = (Json "Friend request accepted", w2)
    ∧ postRequest senderId receiverId w2 = (Status 400 "Already friends", w3)
    ∧ postRequest receiverId senderId w2 = (Status 400 "Already friends", w4).
Proof.
  intros Hsender Hreceiver Hne Hfriend Hsent.
  destruct (postRequest_step w senderId receiverId sender receiver)
    as (w1 & Hrun1 & Hrel1); [done..|].
  rewrite (bool_decide_eq_false_2 _ Hsent) in Hrun1. simpl in Hrun1.
  destruct (relisted_lookup _ _ _ senderId sender Hrel1 Hsender)
    as (sender1 & Hsender1 & _).
  destruct (relisted_lookup _ _ _ receiverId receiver Hrel1 Hreceiver)
    as (receiver1 & Hreceiver1 & _).
  destruct (postAccept_step w1 receiverId senderId receiver1 sender1)
    as (w2 & Hrun2 & Hrel2); [done..|].
  destruct (relisted_lookup _ _ _ senderId sender1 Hrel2 Hsender1)
    as (sender2 & Hsender2 & _ & Hfs2 & _).
  destruct (relisted_lookup _ _ _ receiverId receiver1 Hrel2 Hreceiver1)
    as (receiver2 & Hreceiver2 & _ & Hfr2 & _).
  simpl in Hfs2, Hfr2.
  rewrite decide_False, decide_True in Hfs2 by done.
  rewrite decide_True in Hfr2 by done.
  destruct (postRequest_friends w2 senderId receiverId _ _ Hsender2 Hreceiver2)
    as (w3 & Hrun3 & _).
  { rewrite Hfs2, elem_of_app, list_elem_of_singleton. tauto. }
  destruct (postRequest_friends w2 receiverId senderId _ _ Hreceiver2 Hsender2)
    as (w4 & Hrun4 & _).
  { rewrite Hfr2, elem_of_app, list_elem_of_singleton. tauto. }
  by exists w1, w2, w3, w4.
Qed.

Lemma request_accept_then_friends_witness :
  ∃ w1 w2 w3 w4,
    postRequest "a1a1a1a1a1a1a1a1a1a1a1a1" "b1b1b1b1b1b1b1b1b1b1b1b1" Demo.world
    = (Json {| message := "Friend request sent"; status := "requested" |}, w1)
    ∧ postAccept "b1b1b1b1b1b1b1b1b1b1b1b1" "a1a1a1a1a1a1a1a1a1a1a1a1" w1
      = (Json "Friend request accepted", w2)
    ∧ postRequest "a1a1a1a1a1a1a1a1a1a1a1a1" "b1b1b1b1b1b1b1b1b1b1b1b1" w2
      = (Status 400 "Already friends", w3)
    ∧ postRequest "b1b1b1b1b1b1b1b1b1b1b1b1" "a1a1a1a1a1a1a1a1a1a1a1a1" w2
      = (Status 400 "Already friends", w4).
Proof.
  apply (request_accept_then_friends Demo.world
           "a1a1a1a1a1a1a1a1a1a1a1a1" "b1b1b1b1b1b1b1b1b1b1b1b1" Demo.ann Demo.bob).
  - reflexivity.
  - reflexivity.
  - apply (bool_decide_unpack ("a1a1a1a1a1a1a1a1a1a1a1a1" ≠ "b1b1b1b1b1b1b1b1b1b1b1b1")).
    vm_compute. exact I.
  - apply (bool_decide_unpack ("b1b1b1b1b1b1b1b1b1b1b1b1" ∉ friends Demo.ann)).
    vm_compute. exact I.
  - apply (bool_decide_unpack
             ("b1b1b1b1b1b1b1b1b1b1b1b1" ∉ sentFriendRequests Demo.ann)).
    vm_compute. exact I.
Defined.

(** ** POST /unfriend/:userId *)

(** One unfriending between two different stored users. *)
Lemma postUnfriend_step (w : World) (userId paramUserId : ObjectId) (caller friend : User) :
  Mongoose.lookupId userId (docs w) = Some caller →
  Mongoose.lookupId paramUserId (docs w) = Some friend →
  userId ≠ paramUserId →
  ∃ w1,
    postUnfriend userId paramUserId w = (Json "Friend removed", w1)
    ∧ relisted (unfriendLists userId paramUserId) (docs w) (docs w1).
Proof.
  intros Hcaller Hfriend Hne.
  destruct (lookupId_Some _ _ _ Hcaller) as [Hcid _].
  destruct (lookupId_Some _ _ _ Hfriend) as [Hfid _].
  subst userId paramUserId.
  unfold postUnfriend, tryCatch, unfriendBody, mbind, Async_bind, Mongoose.findById.
  simpl. rewrite Hcaller. simpl. rewrite Hfriend. simpl.
  match goal with
  | |- context [Mongoose.save caller ?c1 ?w0] =>
      destruct (save_both caller friend c1
                  [Mongoose.Assign Mongoose.PathFriends
                     (filter (λ id, id ≠ _id caller) (friends friend))]
                  w0)
        as (w1 & w2 & Hsave1 & Hsave2 & Hrel);
        [done|done|done|apply NoDup_singleton|apply NoDup_singleton|]
  end.
  rewrite Hsave1, Hsave2. eexists. split; [reflexivity|].
  revert Hrel. apply relisted_ext. intros i u p Hu. simpl in Hu.
  unfold unfriendLists.
  destruct (decide (i = _id caller)) as [->|Hi1];
    [|destruct (decide (i = _id friend)) as [->|Hi2]];
    simplify_eq; destruct p; simpl; rewrite ?decide_False by done; reflexivity.
Qed.




(** X7. Unfriending succeeds for any two different stored users, friends or
    not.  Afterwards the caller's friends list is the one it was without
    every entry of the other user, the other user's the one it was without
    every entry of the caller, and no document has changed in anything
    else. *)
Theorem unfriend_removes (w : World) (userId paramUserId : ObjectId) (caller friend : User) :
  Mongoose.lookupId userId (docs w) = Some caller →
  Mongoose.lookupId paramUserId (docs w) = Some friend →
  userId ≠ paramUserId →
  ∃ w',
    postUnfriend userId paramUserId w = (Json "Friend removed", w')
    ∧ (∀ i u, Mongoose.lookupId i (docs w) = Some u →
         ∃ u',
           Mongoose.lookupId i (docs w') = Some u'
           ∧ _id u' = _id u ∧ username u' = username u ∧ password u' = password u
           ∧ interests u' = interests u
           ∧ sentFriendRequests u' = sentFriendRequests u
           ∧ pendingFriendRequests u' = pendingFriendRequests u
           ∧ friends u'
             = (if decide (i = userId)
                then filter (λ id, id ≠ paramUserId) (friends u)
                else if decide (i = paramUserId)
                then filter (λ id, id ≠ userId) (friends u)
                else friends u)).
Proof.
  intros Hcaller Hfriend Hne.
  destruct (postUnfriend_step w userId paramUserId caller friend)
    as (w' & Hrun & Hrel); [done..|].
  exists w'. split; [done|]. intros i u Hu.
  destruct (relisted_lookup _ _ _ i u Hrel Hu)
    as (u' & Hu' & (? & ? & ? & ?) & Hf & Hs & Hp).
  exists u'. by repeat (split; [done|]).
Qed.

Lemma unfriend_removes_witness :
  ∃ w',
    postUnfriend "a1a1a1a1a1a1a1a1a1a1a1a1" "f1f1f1f1f1f1f1f1f1f1f1f1" Demo.world
    = (Json "Friend removed", w')
    ∧ (∀ i u, Mongoose.lookupId i (docs Demo.world) = Some u →
         ∃ u',
           Mongoose.lookupId i (docs w') = Some u'
           ∧ _id u' = _id u ∧ username u' = username u ∧ password u' = password u
           ∧ interests u' = interests u
           ∧ sentFriendRequests u' = sentFriendRequests u
           ∧ pendingFriendRequests u' = pendingFriendRequests u
           ∧ friends u'
             = (if decide (i = "a1a1a1a1a1a1a1a1a1a1a1a1")
                then filter (λ id, id ≠ "f1f1f1f1f1f1f1f1f1f1f1f1") (friends u)
                else if decide (i = "f1f1f1f1f1f1f1f1f1f1f1f1")
                then filter (λ id, id ≠ "a1a1a1a1a1a1a1a1a1a1a1a1") (friends u)
                else friends u)).
Proof.
  apply (unfriend_removes Demo.world
           "a1a1a1a1a1a1a1a1a1a1a1a1" "f1f1f1f1f1f1f1f1f1f1f1f1" Demo.ann Demo.fay).
  - reflexivity.
  - reflexivity.
  - apply (bool_decide_unpack ("a1a1a1a1a1a1a1a1a1a1a1a1" ≠ "f1f1f1f1f1f1f1f1f1f1f1f1")).
    vm_compute. exact I.
Defined.

(** Saving a copy whose assigned list is the list it was fetched with sends
    nothing. *)
Lemma save_unmodified (fetched : User) (p : Mongoose.Path) (l : list ObjectId) (w : World) :
  l = Mongoose.getPath p fetched →
  Mongoose.save fetched [Mongoose.Assign p l] w = (Returned (), w).
Proof.
  intros ->. unfold Mongoose.save.
  rewrite filter_cons_False; [done|].
  simpl. rewrite bool_decide_eq_true_2 by done. simpl. tauto.
Qed.

Lemma filter_twice (x : ObjectId) (l : list ObjectId) :
  filter (λ id, id ≠ x) (filter (λ id, id ≠ x) l) = filter (λ id, id ≠ x) l.
Proof. rewrite list_filter_filter. apply list_filter_iff. tauto. Qed.

(** X8. Unfriending between two different stored users is idempotent: a
    second identical call succeeds again, finds nothing to remove, and sends
    no update, so the collection is as the first call left it. *)
Theorem unfriend_idempotent (w : World) (userId paramUserId : ObjectId) (caller friend : User) :
  Mongoose.lookupId userId (docs w) = Some caller →
  Mongoose.lookupId paramUserId (docs w) = Some friend →
  userId ≠ paramUserId →
  ∃ w1 w2,
    postUnfriend userId paramUserId w = (Json "Friend removed", w1)
    ∧ postUnfriend userId paramUserId w1 = (Json "Friend removed", w2)
    ∧ docs w2 = docs w1.
Proof.
  intros Hcaller Hfriend Hne.
  destruct (postUnfriend_step w userId paramUserId caller friend)
    as (w1 & Hrun1 & Hrel1); [done..|].
  destruct (relisted_lookup _ _ _ userId caller Hrel1 Hcaller)
    as (caller1 & Hcaller1 & _ & Hfc & _).
  destruct (relisted_lookup _ _ _ paramUserId friend Hrel1 Hfriend)
    as (friend1 & Hfriend1 & _ & Hff & _).
  simpl in Hfc, Hff.
  rewrite decide_True in Hfc by done.
  rewrite decide_False, decide_True in Hff by done.
  exists w1. rewrite Hrun1.
  destruct (lookupId_Some _ _ _ Hcaller1) as [Hcid _].
  destruct (lookupId_Some _ _ _ Hfriend1) as [Hfid _].
  unfold postUnfriend, tryCatch, unfriendBody, mbind, Async_bind, Mongoose.findById.
  simpl. rewrite Hcaller1. simpl. rewrite Hfriend1. simpl.
  rewrite Hcid, Hfid.
  rewrite save_unmodified by (simpl; rewrite Hfc; apply filter_twice).
  rewrite save_unmodified by (simpl; rewrite Hff; apply filter_twice).
  eexists. split; [done|]. split; reflexivity.
Qed.

Lemma unfriend_idempotent_witness :
  ∃ w1 w2,
    postUnfriend "a1a1a1a1a1a1a1a1a1a1a1a1" "f1f1f1f1f1f1f1f1f1f1f1f1" Demo.world
    = (Json "Friend removed", w1)
    ∧ postUnfriend "a1a1a1a1a1a1a1a1a1a1a1a1" "f1f1f1f1f1f1f1f1f1f1f1f1" w1
      = (Json "Friend removed", w2)
    ∧ docs w2 = docs w1.
Proof.
  apply (unfriend_idempotent Demo.world
           "a1a1a1a1a1a1a1a1a1a1a1a1" "f1f1f1f1f1f1f1f1f1f1f1f1" Demo.ann Demo.fay).
  - reflexivity.
  - reflexivity.
  - apply (bool_decide_unpack ("a1a1a1a1a1a1a1a1a1a1a1a1" ≠ "f1f1f1f1f1f1f1f1f1f1f1f1")).
    vm_compute. exact I.
Defined.

Lemma filter_absent (x : ObjectId) (l : list ObjectId) :
  x ∉ l → filter (λ id, id ≠ x) l = l.
Proof.
  induction l as [|y l IH]; [done|].
  rewrite not_elem_of_cons. intros [Hne Hl].
  rewrite filter_cons_True by done. by rewrite IH.
Qed.

Lemma filter_appended (x : ObjectId) (l : list ObjectId) :
  x ∉ l → filter (λ id, id ≠ x) (l ++ [x]) = l.
Proof.
  intros Hl. rewrite filter_app, (filter_absent x l Hl).
  rewrite filter_cons_False by (intros Hne; by apply Hne).
  by rewrite filter_nil, app_nil_r.
Qed.

(** X9. Accepting and then unfriending is a round trip on the friends
    lists: for two different stored users who were not in each other's
    friends list, every stored document ends with the friends list it
    started with. *)
Theorem accept_unfriend_round_trip (w : World) (userId paramUserId : ObjectId)
    (receiver sender : User) :
  Mongoose.lookupId userId (docs w) = Some receiver →
  Mongoose.lookupId paramUserId (docs w) = Some sender →
  userId ≠ paramUserId →
  paramUserId ∉ friends receiver →
  userId ∉ friends sender →
  ∃ w1 w2,
    postAccept userId paramUserId w = (Json "Friend request accepted", w1)
    ∧ postUnfriend userId paramUserId w1 = (Json "Friend removed", w2)
    ∧ ∀ i, friends <$> Mongoose.lookupId i (docs w2)
           = friends <$> Mongoose.lookupId i (docs w).
Proof.
  intros Hreceiver Hsender Hne Hnot1 Hnot2.
  destruct (postAccept_step w userId paramUserId receiver sender)
    as (w1 & Hrun1 & Hrel1); [done..|].
  destruct (relisted_lookup _ _ _ userId receiver Hrel1 Hreceiver)
    as (receiver1 & Hreceiver1 & _).
  destruct (relisted_lookup _ _ _ paramUserId sender Hrel1 Hsender)
    as (sender1 & Hsender1 & _).
  destruct (postUnfriend_step w1 userId paramUserId receiver1 sender1)
    as (w2 & Hrun2 & Hrel2); [done..|].
  exists w1, w2. split; [done|]. split; [done|].
  intros i.
  destruct (Mongoose.lookupId i (docs w)) as [u|] eqn:Hu.
  - destruct (relisted_lookup _ _ _ i u Hrel1 Hu) as (u1 & Hu1 & _ & Hf1 & _).
    destruct (relisted_lookup _ _ _ i u1 Hrel2 Hu1) as (u2 & Hu2 & _ & Hf2 & _).
    rewrite Hu2. simpl. f_equal. rewrite Hf2. simpl. rewrite Hf1. simpl.
    assert (i = userId → u = receiver) as Hr by (intros ->; congruence).
    assert (i = paramUserId → u = sender) as Hs by (intros ->; congruence).
    destruct (decide (i = userId)) as [Hiu|Hiu].
    + rewrite (Hr Hiu). by apply filter_appended.
    + destruct (decide (i = paramUserId)) as [Hip|Hip]; [|done].
      rewrite (Hs Hip). by apply filter_appended.
  - specialize (Hrel1 i). rewrite Hu in Hrel1. inversion Hrel1 as [|E1 E2].
    specialize (Hrel2 i). rewrite <- E2 in Hrel2. inversion Hrel2 as [|E3 E4].
    done.
Qed.

Lemma accept_unfriend_round_trip_witness :
  ∃ w1 w2,
    postAccept "c1c1c1c1c1c1c1c1c1c1c1c1" "a1a1a1a1a1a1a1a1a1a1a1a1" Demo.world
    = (Json "Friend request accepted", w1)
    ∧ postUnfriend "c1c1c1c1c1c1c1c1c1c1c1c1" "a1a1a1a1a1a1a1a1a1a1a1a1" w1
      = (Json "Friend removed", w2)
    ∧ ∀ i, friends <$> Mongoose.lookupId i (docs w2)
           = friends <$> Mongoose.lookupId i (docs Demo.world).
Proof.
  apply (accept_unfriend_round_trip Demo.world
           "c1c1c1c1c1c1c1c1c1c1c1c1" "a1a1a1a1a1a1a1a1a1a1a1a1" Demo.cat Demo.ann).
  - reflexivity.
  - reflexivity.
  - apply (bool_decide_unpack ("c1c1c1c1c1c1c1c1c1c1c1c1" ≠ "a1a1a1a1a1a1a1a1a1a1a1a1")).
    vm_compute. exact I.
  - apply (bool_decide_unpack ("a1a1a1a1a1a1a1a1a1a1a1a1" ∉ friends Demo.cat)).
    vm_compute. exact I.
  - apply (bool_decide_unpack ("c1c1c1c1c1c1c1c1c1c1c1c1" ∉ friends Demo.ann)).
    vm_compute. exact I.
Defined.


(** ** Checking a directory document by document *)




(** ** What the lists show after a write *)

(** X13. Between two different users a new request shows up in the
    receiver's pending list and a cancelled one is gone from it: after the
    first call by a sender who had not asked yet, GET /pending as the
    receiver lists the sender; after the second call it does not. *)
Theorem request_seen_in_pending (w : World) (senderId receiverId : ObjectId)
    (sender receiver : User) :
  Mongoose.lookupId senderId (docs w) = Some sender →
  Mongoose.lookupId receiverId (docs w) = Some receiver →
  senderId ≠ receiverId →
  receiverId ∉ friends sender →
  receiverId ∉ sentFriendRequests sender →
  ∃ w1 w2 listed1 w1' listed2 w2',
    postRequest senderId receiverId w
    = (Json {| message := "Friend request sent"; status := "requested" |}, w1)
    ∧ getPending receiverId w1 = (Json listed1, w1')
    ∧ senderId ∈ _id <$> listed1
    ∧ postRequest senderId receiverId w1
      = (Json {| message := "Friend request cancelled"; status := "cancelled" |}, w2)
    ∧ getPending receiverId w2 = (Json listed2, w2')
    ∧ senderId ∉ _id <$> listed2.
Proof.
  intros Hsender Hreceiver Hne Hfriend Hsent.
  destruct (postRequest_step w senderId receiverId sender receiver)
    as (w1 & Hrun1 & Hrel1); [done..|].
  rewrite (bool_decide_eq_false_2 _ Hsent) in Hrun1, Hrel1. simpl in Hrun1.
  destruct (relisted_lookup _ _ _ senderId sender Hrel1 Hsender)
    as (sender1 & Hsender1 & _ & Hfs1 & Hss1 & _).
  destruct (relisted_lookup _ _ _ receiverId receiver Hrel1 Hreceiver)
    as (receiver1 & Hreceiver1 & _ & _ & _ & Hpr1).
  simpl in Hfs1, Hss1, Hpr1.
  rewrite decide_True in Hss1 by done. rewrite decide_True in Hpr1 by done.
  destruct (getPending_run w1 receiverId _ Hreceiver1) as (w1' & Hget1).
  destruct (postRequest_step w1 senderId receiverId sender1 receiver1)
    as (w2 & Hrun2 & Hrel2); [done|done|done|by rewrite Hfs1|].
  assert (receiverId ∈ sentFriendRequests sender1) as Hnow.
  { rewrite Hss1, elem_of_app, list_elem_of_singleton. tauto. }
  rewrite (bool_decide_eq_true_2 _ Hnow) in Hrun2, Hrel2. simpl in Hrun2.
  destruct (relisted_lookup _ _ _ receiverId receiver1 Hrel2 Hreceiver1)
    as (receiver2 & Hreceiver2 & _ & _ & _ & Hpr2).
  simpl in Hpr2. rewrite decide_True in Hpr2 by done.
  destruct (getPending_run w2 receiverId _ Hreceiver2) as (w2' & Hget2).
  eexists w1, w2, _, w1', _, w2'.
  split; [done|]. split; [done|]. split; [|split; [done|split; [done|]]].
  - apply elem_of_populated_ids. split; [|by rewrite Hsender1].
    rewrite Hpr1, elem_of_app, list_elem_of_singleton. tauto.
  - rewrite elem_of_populated_ids. intros [Hin _].
    rewrite Hpr2 in Hin.
    apply list_elem_of_filter in Hin as [Hnot _]. by apply Hnot.
Qed.

Lemma request_seen_in_pending_witness :
  ∃ w1 w2 listed1 w1' listed2 w2',
    postRequest "a1a1a1a1a1a1a1a1a1a1a1a1" "b1b1b1b1b1b1b1b1b1b1b1b1" Demo.world
    = (Json {| message := "Friend request sent"; status := "requested" |}, w1)
    ∧ getPending "b1b1b1b1b1b1b1b1b1b1b1b1" w1 = (Json listed1, w1')
    ∧ "a1a1a1a1a1a1a1a1a1a1a1a1" ∈ _id <$> listed1
    ∧ postRequest "a1a1a1a1a1a1a1a1a1a1a1a1" "b1b1b1b1b1b1b1b1b1b1b1b1" w1
      = (Json {| message := "Friend request cancelled"; status := "cancelled" |}, w2)
    ∧ getPending "b1b1b1b1b1b1b1b1b1b1b1b1" w2 = (Json listed2, w2')
    ∧ "a1a1a1a1a1a1a1a1a1a1a1a1" ∉ _id <$> listed2.
Proof.
  apply (request_seen_in_pending Demo.world
           "a1a1a1a1a1a1a1a1a1a1a1a1" "b1b1b1b1b1b1b1b1b1b1b1b1" Demo.ann Demo.bob).
  - reflexivity.
  - reflexivity.
  - apply (bool_decide_unpack ("a1a1a1a1a1a1a1a1a1a1a1a1" ≠ "b1b1b1b1b1b1b1b1b1b1b1b1")).
    vm_compute. exact I.
  - apply (bool_decide_unpack ("b1b1b1b1b1b1b1b1b1b1b1b1" ∉ friends Demo.ann)).
    vm_compute. exact I.
  - apply (bool_decide_unpack
             ("b1b1b1b1b1b1b1b1b1b1b1b1" ∉ sentFriendRequests Demo.ann)).
    vm_compute. exact I.
Defined.

(** X14. An acceptance between two different stored users shows in the
    lists: afterwards GET / lists the sender for the caller and the caller
    for the sender, and GET /pending as the caller no longer lists the
    sender. *)
Theorem accept_seen_in_lists (w : World) (userId paramUserId : ObjectId)
    (receiver sender : User) :
  Mongoose.lookupId userId (docs w) = Some receiver →
  Mongoose.lookupId paramUserId (docs w) = Some sender →
  userId ≠ paramUserId →
  ∃ w1 callerFriends wa senderFriends wb callerPending wc,
    postAccept userId paramUserId w = (Json "Friend request accepted", w1)
    ∧ getFriends userId w1 = (Json callerFriends, wa)
    ∧ paramUserId ∈ _id <$> callerFriends
    ∧ getFriends paramUserId w1 = (Json senderFriends, wb)
    ∧ userId ∈ _id <$> senderFriends
    ∧ getPending userId w1 = (Json callerPending, wc)
    ∧ paramUserId ∉ _id <$> callerPending.
Proof.
  intros Hreceiver Hsender Hne.
  destruct (postAccept_step w userId paramUserId receiver sender)
    as (w1 & Hrun & Hrel); [done..|].
  destruct (relisted_lookup _ _ _ userId receiver Hrel Hreceiver)
    as (receiver1 & Hreceiver1 & _ & Hfr & _ & Hpr).
  destruct (relisted_lookup _ _ _ paramUserId sender Hrel Hsender)
    as (sender1 & Hsender1 & _ & Hfs & _ & _).
  simpl in Hfr, Hpr, Hfs.
  rewrite decide_True in Hfr by done. rewrite decide_True in Hpr by done.
  rewrite decide_False, decide_True in Hfs by done.
  destruct (getFriends_run w1 userId _ Hreceiver1) as (wa & Hgeta).
  destruct (getFriends_run w1 paramUserId _ Hsender1) as (wb & Hgetb).
  destruct (getPending_run w1 userId _ Hreceiver1) as (wc & Hgetc).
  eexists w1, _, wa, _, wb, _, wc.
  split; [done|]. split; [done|]. split; [|split; [done|split; [|split; [done|]]]].
  - apply elem_of_populated_ids. split; [|by rewrite Hsender1].
    rewrite Hfr, elem_of_app, list_elem_of_singleton. tauto.
  - apply elem_of_populated_ids. split; [|by rewrite Hreceiver1].
    rewrite Hfs, elem_of_app, list_elem_of_singleton. tauto.
  - rewrite elem_of_populated_ids. intros [Hin _].
    rewrite Hpr in Hin.
    apply list_elem_of_filter in Hin as [Hnot _]. by apply Hnot.
Qed.

Lemma accept_seen_in_lists_witness :
  ∃ w1 callerFriends wa senderFriends wb callerPending wc,
    postAccept "c1c1c1c1c1c1c1c1c1c1c1c1" "a1a1a1a1a1a1a1a1a1a1a1a1" Demo.world
    = (Json "Friend request accepted", w1)
    ∧ getFriends "c1c1c1c1c1c1c1c1c1c1c1c1" w1 = (Json callerFriends, wa)
    ∧ "a1a1a1a1a1a1a1a1a1a1a1a1" ∈ _id <$> callerFriends
    ∧ getFriends "a1a1a1a1a1a1a1a1a1a1a1a1" w1 = (Json senderFriends, wb)
    ∧ "c1c1c1c1c1c1c1c1c1c1c1c1" ∈ _id <$> senderFriends
    ∧ getPending "c1c1c1c1c1c1c1c1c1c1c1c1" w1 = (Json callerPending, wc)
    ∧ "a1a1a1a1a1a1a1a1a1a1a1a1" ∉ _id <$> callerPending.
Proof.
  apply (accept_seen_in_lists Demo.world
           "c1c1c1c1c1c1c1c1c1c1c1c1" "a1a1a1a1a1a1a1a1a1a1a1a1" Demo.cat Demo.ann).
  - reflexivity.
  - reflexivity.
  - apply (bool_decide_unpack ("c1c1c1c1c1c1c1c1c1c1c1c1" ≠ "a1a1a1a1a1a1a1a1a1a1a1a1")).
    vm_compute. exact I.
Defined.

(** X15. An unfriending between two different stored users shows in the
    lists: afterwards GET / lists neither user for the other. *)
Theorem unfriend_seen_in_lists (w : World) (userId paramUserId : ObjectId)
    (caller friend : User) :
  Mongoose.lookupId userId (docs w) = Some caller →
  Mongoose.lookupId paramUserId (docs w) = Some friend →
  userId ≠ paramUserId →
  ∃ w1 callerFriends wa friendFriends wb,
    postUnfriend userId paramUserId w = (Json "Friend removed", w1)
    ∧ getFriends userId w1 = (Json callerFriends, wa)
    ∧ (paramUserId ∉ _id <$> callerFriends)
    ∧ getFriends paramUserId w1 = (Json friendFriends, wb)
    ∧ userId ∉ _id <$> friendFriends.
Proof.
  intros Hcaller Hfriend Hne.
  destruct (postUnfriend_step w userId paramUserId caller friend)
    as (w1 & Hrun & Hrel); [done..|].
  destruct (relisted_lookup _ _ _ userId caller Hrel Hcaller)
    as (caller1 & Hcaller1 & _ & Hfc & _).
  destruct (relisted_lookup _ _ _ paramUserId friend Hrel Hfriend)
    as (friend1 & Hfriend1 & _ & Hff & _).
  simpl in Hfc, Hff.
  rewrite decide_True in Hfc by done.
  rewrite decide_False, decide_True in Hff by done.
  destruct (getFriends_run w1 userId _ Hcaller1) as (wa & Hgeta).
  destruct (getFriends_run w1 paramUserId _ Hfriend1) as (wb & Hgetb).
  eexists w1, _, wa, _, wb.
  split; [done|]. split; [done|]. split; [|split; [done|]].
  - rewrite elem_of_populated_ids. intros [Hin _].
    rewrite Hfc in Hin.
    apply list_elem_of_filter in Hin as [Hnot _]. by apply Hnot.
  - rewrite elem_of_populated_ids. intros [Hin _].
    rewrite Hff in Hin.
    apply list_elem_of_filter in Hin as [Hnot _]. by apply Hnot.
Qed.

Lemma unfriend_seen_in_lists_witness :
  ∃ w1 callerFriends wa friendFriends wb,
    postUnfriend "a1a1a1a1a1a1a1a1a1a1a1a1" "f1f1f1f1f1f1f1f1f1f1f1f1" Demo.world
    = (Json "Friend removed", w1)
    ∧ getFriends "a1a1a1a1a1a1a1a1a1a1a1a1" w1 = (Json callerFriends, wa)
    ∧ ("f1f1f1f1f1f1f1f1f1f1f1f1" ∉ _id <$> callerFriends)
    ∧ getFriends "f1f1f1f1f1f1f1f1f1f1f1f1" w1 = (Json friendFriends, wb)
    ∧ "a1a1a1a1a1a1a1a1a1a1a1a1" ∉ _id <$> friendFriends.
Proof.
  apply (unfriend_seen_in_lists Demo.world
           "a1a1a1a1a1a1a1a1a1a1a1a1" "f1f1f1f1f1f1f1f1f1f1f1f1" Demo.ann Demo.fay).
  - reflexivity.
  - reflexivity.
  - apply (bool_decide_unpack ("a1a1a1a1a1a1a1a1a1a1a1a1" ≠ "f1f1f1f1f1f1f1f1f1f1f1f1")).
    vm_compute. exact I.
Defined.

(** ** The same user on both sides, and malformed identifiers *)

(** A [:userId] that is no identifier is refused by the lookup itself: all
    three routes answer 500, and nothing is written. *)
Example scenario_malformed_identifier :
  postRequest "a1a1a1a1a1a1a1a1a1a1a1a1" "nope" Demo.world
  = (Status 500 "Error managing friend request",
     Mongoose.logCall (CallFindById "a1a1a1a1a1a1a1a1a1a1a1a1") Demo.world)
  ∧ postAccept "a1a1a1a1a1a1a1a1a1a1a1a1" "nope" Demo.world
    = (Status 500 "Error accepting friend request",
       Mongoose.logCall (CallFindById "a1a1a1a1a1a1a1a1a1a1a1a1") Demo.world)
  ∧ postUnfriend "a1a1a1a1a1a1a1a1a1a1a1a1" "nope" Demo.world
    = (Status 500 "Error removing friend",
       Mongoose.logCall (CallFindById "a1a1a1a1a1a1a1a1a1a1a1a1") Demo.world).
Proof. repeat split; vm_compute; reflexivity. Qed.

(** ann accepts herself: neither copy has an array to assign, both saves
    are pushes and go through, and she is in her own friends list twice.
    She then unfriends herself: both copies get the friends list assigned,
    the first save is applied and the second, of the copy that is no longer
    current, is refused.  The reply is a 500, after the list was
    rewritten. *)
Example scenario_unfriend_oneself :
  ∃ w1 w2 ann1 ann2,
    postAccept "a1a1a1a1a1a1a1a1a1a1a1a1" "a1a1a1a1a1a1a1a1a1a1a1a1" Demo.world
    = (Json "Friend request accepted", w1)
    ∧ Mongoose.lookupId "a1a1a1a1a1a1a1a1a1a1a1a1" (docs w1) = Some ann1
    ∧ friends ann1
      = ["f1f1f1f1f1f1f1f1f1f1f1f1"; "a1a1a1a1a1a1a1a1a1a1a1a1";
         "a1a1a1a1a1a1a1a1a1a1a1a1"]
    ∧ postUnfriend "a1a1a1a1a1a1a1a1a1a1a1a1" "a1a1a1a1a1a1a1a1a1a1a1a1" w1
      = (Status 500 "Error removing friend", w2)
    ∧ Mongoose.lookupId "a1a1a1a1a1a1a1a1a1a1a1a1" (docs w2) = Some ann2
    ∧ friends ann2 = ["f1f1f1f1f1f1f1f1f1f1f1f1"].
Proof.
  eexists _, _, _, _.
  split; [vm_compute; reflexivity|].
  split; [vm_compute; reflexivity|].
  split; [reflexivity|].
  split; [vm_compute; reflexivity|].
  split; [vm_compute; reflexivity|].
  reflexivity.
Qed.

(** ** GET /search: what a result carries *)

Lemma getSearch_results (regex : string → string → option (string → bool))
    (userId : ObjectId) (queryUsername : option string) (w w' : World)
    (results : list EnhancedUser) :
  getSearch regex userId queryUsername w = (Json results, w') →
  results = []
  ∨ ∃ currentUser hits,
      Mongoose.lookupId userId (docs w) = Some currentUser
      ∧ hits ⊆ docs w
      ∧ results = enhance currentUser <$> (Mongoose.selectMinusPassword <$> hits).
Proof.
  unfold getSearch, tryCatch, searchBody, mbind, Async_bind.
  destruct queryUsername as [[|c term]|]; simpl;
    try (intros [= <- _]; by left).
  destruct (findById_cases userId w) as [->|(_ & _ & ->)]; [|done].
  unfold Mongoose.find, throw.
  destruct (regex _ _) as [test|]; simpl; [|done].
  set (hits := filter _ (docs w)).
  assert (JS.slice0 10 (Mongoose.selectMinusPassword <$> hits)
          = Mongoose.selectMinusPassword <$> take 10 hits) as ->
    by (unfold JS.slice0; by rewrite fmap_take).
  destruct (take 10 hits) as [|u users] eqn:Htake; simpl.
  - intros [= <- _]. by left.
  - destruct (Mongoose.lookupId userId (docs w)) as [currentUser|]; simpl; [|done].
    intros [= <- _]. right. exists currentUser, (u :: users).
    split; [done|]. split; [|done].
    rewrite <- Htake. intros x Hx%elem_of_take.
    destruct Hx as (i & Hi%list_elem_of_lookup_2 & _).
    unfold hits in Hi. by apply list_elem_of_filter in Hi as [_ ?].
Qed.



(** X17. The [requestStatus] of a search result reads the caller's own lists,
    the sent list first: it is "requested" exactly for users in the
    caller's sent list, "friend" exactly for users in the friends list but
    not in the sent list, and "none" exactly for the others. *)
Theorem search_request_status (regex : string → string → option (string → bool))
    (userId : ObjectId) (queryUsername : option string) (w w' : World)
    (results : list EnhancedUser) (currentUser : User) :
  getSearch regex userId queryUsername w = (Json results, w') →
  Mongoose.lookupId userId (docs w) = Some currentUser →
  Forall (λ e,
    (requestStatus e = "requested"
     ↔ _id (found e) ∈ sentFriendRequests currentUser)
    ∧ (requestStatus e = "friend"
       ↔ (_id (found e) ∉ sentFriendRequests currentUser)
         ∧ _id (found e) ∈ friends currentUser)
    ∧ (requestStatus e = "none"
       ↔ (_id (found e) ∉ sentFriendRequests currentUser)
         ∧ _id (found e) ∉ friends currentUser)) results.
Proof.
  intros Hrun Hlookup. apply Forall_forall. revert Hrun Hlookup.
  intros [->|(currentUser' & hits & Hcurrent & _ & ->)]%getSearch_results Hlookup e He.
  - by apply elem_of_nil in He.
  - assert (currentUser' = currentUser) as -> by congruence.
    apply list_elem_of_fmap in He as (v & -> & _).
    unfold enhance. simpl. repeat case_decide; repeat split; try done; tauto.
Qed.

Lemma search_request_status_witness :
  Forall (λ e,
    (requestStatus e = "requested"
     ↔ _id (found e) ∈ sentFriendRequests Demo.ann)
    ∧ (requestStatus e = "friend"
       ↔ (_id (found e) ∉ sentFriendRequests Demo.ann)
         ∧ _id (found e) ∈ friends Demo.ann)
    ∧ (requestStatus e = "none"
       ↔ (_id (found e) ∉ sentFriendRequests Demo.ann)
         ∧ _id (found e) ∉ friends Demo.ann))
    [enhance Demo.ann (Mongoose.selectMinusPassword Demo.cat)].
Proof.
  apply (search_request_status Demo.literalPrefix "a1a1a1a1a1a1a1a1a1a1a1a1" (Some "c") Demo.world
           (getSearch Demo.literalPrefix "a1a1a1a1a1a1a1a1a1a1a1a1" (Some "c") Demo.world).2).
  - reflexivity.
  - reflexivity.
Defined.

(** ** GET /recommendations: who is listed *)

Lemma hydrate_complete (db : list User) (n : nat) (l : list User) (c : User) :
  c ∈ l →
  ∃ p, p ∈ Mongoose.hydrate db n l ∧ doc p = c
       ∧ populatedFriends p = Mongoose.populated db (friends c).
Proof.
  revert n. induction l as [|u l IH]; intros n; [by intros ?%elem_of_nil|].
  intros [->|Hc]%elem_of_cons; simpl.
  - eexists. split; [by left|done].
  - destruct (IH (S n) Hc) as (p & Hp & ? & ?). exists p. split; [by right|done].
Qed.

Lemma gatherSimilarInterests_complete (excludeIds : list ObjectId) (subject : User)
    (w : World) :
  ∃ pool w1,
    gatherSimilarInterests excludeIds subject w = (Returned pool, w1)
    ∧ docs w1 = docs w
    ∧ ∀ c, c ∈ docs w → _id c ∉ excludeIds →
        (∃ x, x ∈ interests subject ∧ x ∈ interests c) →
        ∃ p, p ∈ pool ∧ doc p = c
             ∧ populatedFriends p = Mongoose.populated (docs w) (friends c).
Proof.
  unfold gatherSimilarInterests, Mongoose.findPopulateFriends.
  case_decide as Hsome; eexists _, _; (split; [reflexivity|]); (split; [done|]).
  - intros c Hc Hnin (x & Hx1 & Hx2). apply hydrate_complete.
    apply list_elem_of_filter. split; [|done]. split; [done|].
    apply Exists_exists. by exists x.
  - intros c _ _ (x & Hx & _). destruct (interests subject); simpl in *; [|lia].
    by apply elem_of_nil in Hx.
Qed.

Lemma gatherMutualFriends_complete (excludeIds friendIds : list ObjectId) (w : World) :
  ∃ pool w1,
    gatherMutualFriends excludeIds friendIds w = (Returned pool, w1)
    ∧ docs w1 = docs w
    ∧ ∀ c, c ∈ docs w → _id c ∉ excludeIds →
        (∃ f, f ∈ Mongoose.populated (docs w) (friends c) ∧ _id f ∈ friendIds) →
        ∃ p, p ∈ pool ∧ doc p = c
             ∧ populatedFriends p = Mongoose.populated (docs w) (friends c).
Proof.
  unfold gatherMutualFriends, mbind, Async_bind, Mongoose.findPopulateFriends.
  case_decide as Hsome; eexists _, _; (split; [reflexivity|]); (split; [done|]).
  - intros c Hc Hnin (f & Hf1 & Hf2).
    destruct (hydrate_complete (docs w) (nextObj w)
                (filter (λ c, _id c ∉ excludeIds) (docs w)) c)
      as (p & Hp & Hdoc & Hpop); [by apply list_elem_of_filter|].
    exists p. split; [|done]. apply list_elem_of_filter. split; [|done].
    unfold hasMutualFriends. rewrite Hpop.
    assert (f ∈ filter (λ friend, _id friend ∈ friendIds)
                  (Mongoose.populated (docs w) (friends c))) as Hin
      by (by apply list_elem_of_filter).
    destruct (filter _ (Mongoose.populated (docs w) (friends c))); simpl; [|lia].
    by apply elem_of_nil in Hin.
  - intros c _ _ (f & _ & Hf). destruct friendIds; simpl in *; [|lia].
    by apply elem_of_nil in Hf.
Qed.

Lemma getRecommendations_pool (w : World) (userId : ObjectId) (subject : User) :
  Mongoose.lookupId userId (docs w) = Some subject →
  ∃ pool w',
    getRecommendations userId w =
      (Json (rank (_id <$> Mongoose.populated (docs w) (friends subject))
               (interests subject) pool), w')
    ∧ ∀ c, c ∈ docs w → _id c ∉ exclusionSet subject →
        (∃ x, x ∈ interests subject ∧ x ∈ interests c)
        ∨ (∃ f, f ∈ Mongoose.populated (docs w) (friends c)
                ∧ _id f ∈ _id <$> Mongoose.populated (docs w) (friends subject)) →
        ∃ p, p ∈ pool ∧ doc p = c
             ∧ populatedFriends p = Mongoose.populated (docs w) (friends c).
Proof.
  intros Hsubject.
  unfold getRecommendations, tryCatch, recommendationsBody, mbind, Async_bind,
    Mongoose.findById, Mongoose.populate.
  simpl. rewrite Hsubject. simpl.
  set (friendIds := _id <$> Mongoose.populated (docs w) (friends subject)).
  set (excludeIds := friendIds ++ _).
  set (w0 := Mongoose.logCall (CallFindById userId) w).
  destruct (gatherSimilarInterests_complete excludeIds subject w0)
    as (similar & w1 & Hsimilar & Hdocs1 & Hall1).
  destruct (gatherMutualFriends_complete excludeIds friendIds w1)
    as (mutual & w2 & Hmutual & Hdocs2 & Hall2).
  rewrite Hsimilar, Hmutual. simpl.
  rewrite (gathered_pools_kept _ _ _ _ _ _ _ _ Hsimilar Hmutual).
  eexists _, _. split; [reflexivity|].
  intros c Hc Hnin Hshares.
  assert (_id c ∉ excludeIds) as Hnin'.
  { intros Hin. apply Hnin. unfold excludeIds, friendIds in Hin. unfold exclusionSet.
    rewrite !elem_of_app in Hin. rewrite !elem_of_app.
    rewrite !elem_of_populated_ids in Hin. tauto. }
  destruct Hshares as [Hshares|Hshares].
  - destruct (Hall1 c Hc Hnin' Hshares) as (p & Hp & ?). exists p. split; [|done].
    apply elem_of_app. by left.
  - rewrite Hdocs1 in Hall2.
    destruct (Hall2 c Hc Hnin' Hshares) as (p & Hp & ?). exists p. split; [|done].
    apply elem_of_app. by right.
Qed.

Lemma candidateScore_positive (db : list User) (subject c : User) :
  0 < candidateScore db subject c →
  (∃ x, x ∈ interests subject ∧ x ∈ interests c)
  ∨ (∃ f, f ∈ Mongoose.populated db (friends c)
          ∧ _id f ∈ _id <$> Mongoose.populated db (friends subject)).
Proof.
  unfold candidateScore, scoreOf. simpl. intros Hpos.
  destruct (filter (λ interest, interest ∈ interests c) (interests subject))
    as [|x l] eqn:Hmi.
  - right.
    destruct (filter (λ friend, _id friend ∈ _id <$> Mongoose.populated db (friends subject))
                (Mongoose.populated db (friends c))) as [|f l] eqn:Hmf;
      [simpl in Hpos; lia|].
    assert (f ∈ f :: l) as Hin by by left. rewrite <- Hmf in Hin.
    destruct (proj1 (list_elem_of_filter _ _ _) Hin) as [? ?]. by exists f.
  - left.
    assert (x ∈ x :: l) as Hin by by left. rewrite <- Hmi in Hin.
    destruct (proj1 (list_elem_of_filter _ _ _) Hin) as [? ?]. by exists x.
Qed.

Lemma score_of_gathered (db : list User) (subject : User) (p : Hydrated) :
  populatedFriends p = Mongoose.populated db (friends (doc p)) →
  score (scoreOf (_id <$> Mongoose.populated db (friends subject)) (interests subject) p)
  = candidateScore db subject (doc p).
Proof. intros Hpop. unfold candidateScore, scoreOf. simpl. by rewrite Hpop. Qed.

Lemma rank_top (friendIds : list ObjectId) (userInterests : list string)
    (pool : list Hydrated) (p : Hydrated) :
  p ∈ pool →
  0 < score (scoreOf friendIds userInterests p) →
  scoreOf friendIds userInterests p ∈ rank friendIds userInterests pool
  ∨ (length (rank friendIds userInterests pool) = 5
     ∧ ∀ rec, rec ∈ rank friendIds userInterests pool →
         score (scoreOf friendIds userInterests p) ≤ score rec).
Proof.
  intros Hp Hpos. unfold rank, JS.slice0.
  set (l := JS.sort byScoreDesc _).
  assert (scoreOf friendIds userInterests p ∈ l) as Hin.
  { apply elem_of_sort, list_elem_of_filter. split; [done|].
    by apply list_elem_of_fmap_2. }
  assert (StronglySorted (λ x y, (byScoreDesc x y ≤ 0)%Z) l) as Hsorted.
  { apply Sorted_StronglySorted.
    - intros x y z. unfold byScoreDesc. lia.
    - apply Sorted_sort, byScoreDesc_consistent. }
  clearbody l. rewrite <- (take_drop 5 l) in Hin, Hsorted.
  apply elem_of_app in Hin as [Hin|Hin]; [by left|right].
  split.
  - rewrite length_take. apply Nat.min_l.
    destruct (decide (5 ≤ length l)) as [|Hshort]; [done|].
    assert (length l ≤ 5) as Hl by lia.
    rewrite (drop_ge l 5 Hl) in Hin. by apply elem_of_nil in Hin.
  - intros rec Hrec.
    pose proof (StronglySorted_app_1_elem_of _ _ _ _ _ Hsorted Hrec Hin) as Hle.
    unfold byScoreDesc in Hle. lia.
Qed.

(** X18. The five listed are the best five.  Every stored user outside the
    exclusion set whose score is above zero is in the output, unless the
    output holds five entries and each of them scores at least as much. *)
Theorem recommendations_top_five (w : World) (userId : ObjectId) (subject : User) :
  Mongoose.lookupId userId (docs w) = Some subject →
  ∃ recs w',
    getRecommendations userId w = (Json recs, w')
    ∧ ∀ c, c ∈ docs w → _id c ∉ exclusionSet subject →
        0 < candidateScore (docs w) subject c →
        (∃ rec, rec ∈ recs ∧ doc (user rec) = c)
        ∨ (length recs = 5
           ∧ ∀ rec, rec ∈ recs → candidateScore (docs w) subject c ≤ score rec).
Proof.
  intros Hsubject.
  destruct (getRecommendations_pool w userId subject Hsubject)
    as (pool & w' & Hrun & Hpool).
  eexists _, w'. split; [exact Hrun|].
  intros c Hc Hnin Hpos.
  destruct (Hpool c Hc Hnin (candidateScore_positive _ _ _ Hpos))
    as (p & Hp & <- & Hpop).
  rewrite <- (score_of_gathered _ _ _ Hpop) in Hpos |- *.
  destruct (rank_top _ _ pool p Hp Hpos) as [Hin|[Hfull Hbest]].
  - left. eexists. split; [exact Hin|done].
  - right. split; [done|]. intros rec Hrec. by apply Hbest.
Qed.

Lemma recommendations_top_five_witness :
  ∃ recs w',
    getRecommendations "a1a1a1a1a1a1a1a1a1a1a1a1" Demo.world = (Json recs, w')
    ∧ ∀ c, c ∈ docs Demo.world → _id c ∉ exclusionSet Demo.ann →
        0 < candidateScore (docs Demo.world) Demo.ann c →
        (∃ rec, rec ∈ recs ∧ doc (user rec) = c)
        ∨ (length recs = 5
           ∧ ∀ rec, rec ∈ recs →
               candidateScore (docs Demo.world) Demo.ann c ≤ score rec).
Proof. apply (recommendations_top_five Demo.world "a1a1a1a1a1a1a1a1a1a1a1a1" Demo.ann). reflexivity. Defined.

(** X19. Recommendations hand out stored documents whole: the user document
    of every output element, and every friend document populated into it, is
    a document of the collection as stored, its password field included. *)
Theorem recommendations_return_stored_documents (w : World) (userId : ObjectId)
    (subject : User) :
  Mongoose.lookupId userId (docs w) = Some subject →
  ∃ recs w',
    getRecommendations userId w = (Json recs, w')
    ∧ ∀ rec, rec ∈ recs →
        doc (user rec) ∈ docs w
        ∧ ∀ f, f ∈ populatedFriends (user rec) → f ∈ docs w.
Proof.
  intros Hsubject.
  destruct (getRecommendations_run w userId subject Hsubject)
    as (pool & w' & Hrun & Hpool & _).
  eexists _, w'. split; [exact Hrun|].
  intros rec (p & Hp & -> & _)%elem_of_rank. simpl.
  destruct (Hpool p Hp) as (Hdoc & Hpop & _). split; [done|].
  intros f. rewrite Hpop. intros (i & _ & Hf)%list_elem_of_omap.
  by apply lookupId_Some in Hf as [_ ?].
Qed.

Lemma recommendations_return_stored_documents_witness :
  ∃ recs w',
    getRecommendations "a1a1a1a1a1a1a1a1a1a1a1a1" Demo.world = (Json recs, w')
    ∧ ∀ rec, rec ∈ recs →
        doc (user rec) ∈ docs Demo.world
        ∧ ∀ f, f ∈ populatedFriends (user rec) → f ∈ docs Demo.world.
Proof.
  apply (recommendations_return_stored_documents Demo.world "a1a1a1a1a1a1a1a1a1a1a1a1" Demo.ann). reflexivity.
Defined.

(** ** routes/auth.js *)

Lemma lookupUsername_Some (name : string) (db : list User) (u : User) :
  lookupUsername name db = Some u → username u = name ∧ u ∈ db.
Proof.
  induction db as [|v db IH]; simpl; [done|].
  case_decide.
  - intros [= ->]. split; [done|by left].
  - intros [? ?]%IH. split; [done|by right].
Qed.

Lemma lookupUsername_None (name : string) (db : list User) :
  lookupUsername name db = None ↔ name ∉ username <$> db.
Proof.
  induction db as [|v db IH]; simpl; [split; [intros _; apply not_elem_of_nil|done]|].
  rewrite not_elem_of_cons. case_decide; [|rewrite IH]; intuition congruence.
Qed.

Lemma lookupUsername_appended (name : string) (db : list User) (u : User) :
  lookupUsername name db = None → username u = name →
  lookupUsername name (db ++ [u]) = Some u.
Proof.
  intros Hnone Hname. induction db as [|v db IH]; simpl in *.
  - by rewrite decide_True.
  - case_decide; [done|]. by apply IH.
Qed.

(** X20. Registering a username that is taken answers 400 and stores
    nothing, and a 400 is given for no other reason; this holds whatever the
    schema and the token library do. *)
Theorem register_taken
    (construct : string → string → list string → list User → option User)
    (sign : ObjectId → option string)
    (bodyUsername bodyPassword : string)
    (bodyInterests : list string) (w : World) :
  ((∃ message,
      (postRegister construct sign bodyUsername bodyPassword bodyInterests w).1
      = Refused 400 message)
   ↔ bodyUsername ∈ username <$> docs w)
  ∧ (bodyUsername ∈ username <$> docs w →
     (postRegister construct sign bodyUsername bodyPassword bodyInterests w).1
     = Refused 400 "Username already exists"
     ∧ docs (postRegister construct sign bodyUsername bodyPassword bodyInterests w).2
       = docs w).
Proof.
  unfold postRegister, authCatch, registerBody, mbind, Async_bind, findOneByUsername.
  simpl.
  destruct (lookupUsername bodyUsername (docs w)) as [u|] eqn:Hlookup; simpl.
  - assert (bodyUsername ∈ username <$> docs w) as Htaken.
    { apply lookupUsername_Some in Hlookup as [<- Hu]. by apply list_elem_of_fmap_2. }
    split; [split; [done|by eexists]|done].
  - apply lookupUsername_None in Hlookup.
    split; [|done]. split; [|done].
    intros [message Hreply].
    destruct (construct _ _ _ _) as [created|]; simpl in Hreply; [|done].
    by destruct (sign _).
Qed.


(** X21. Registration keeps usernames unique: if the schema stores the
    username it is given, a collection in which no two users share a
    username stays one, whatever the route answers. *)
Theorem register_keeps_usernames_unique
    (construct : string → string → list string → list User → option User)
    (sign : ObjectId → option string)
    (bodyUsername bodyPassword : string)
    (bodyInterests : list string) (w : World) :
  (∀ db created,
      construct bodyUsername bodyPassword bodyInterests db = Some created →
      username created = bodyUsername) →
  NoDup (username <$> docs w) →
  NoDup (username <$>
           docs (postRegister construct sign bodyUsername bodyPassword bodyInterests w).2).
Proof.
  intros Hschema Hunique.
  unfold postRegister, authCatch, registerBody, mbind, Async_bind, findOneByUsername.
  simpl.
  destruct (lookupUsername bodyUsername (docs w)) as [u|] eqn:Hlookup; simpl; [done|].
  destruct (construct _ _ _ _) as [created|] eqn:Hcreated; simpl; [|done].
  assert (NoDup (username <$> docs w ++ [created])) as Hgrown.
  { rewrite fmap_app. apply NoDup_app. split; [done|]. split; [|apply NoDup_singleton].
    intros x Hx ->%list_elem_of_singleton.
    apply lookupUsername_None in Hlookup. apply Hlookup.
    by rewrite <- (Hschema _ _ Hcreated). }
  by destruct (sign _).
Qed.

(** X22. A token is issued by the login route only to the stored account
    that carries the username, only when [comparePassword] accepts the
    password, always with status 200 and for that account's identifier; and
    logging in never writes. *)
Theorem login_gate
    (comparePassword : User → string → option bool)
    (sign : ObjectId → option string)
    (bodyUsername bodyPassword : string) (w : World) :
  (∀ code token userId,
      (postLogin comparePassword sign bodyUsername bodyPassword w).1
      = Issued code token userId →
      ∃ account,
        lookupUsername bodyUsername (docs w) = Some account
        ∧ username account = bodyUsername
        ∧ comparePassword account bodyPassword = Some true
        ∧ userId = _id account ∧ sign userId = Some token ∧ code = 200)
  ∧ docs (postLogin comparePassword sign bodyUsername bodyPassword w).2 = docs w.
Proof.
  unfold postLogin, authCatch, loginBody, mbind, Async_bind, findOneByUsername, throw.
  simpl.
  destruct (lookupUsername bodyUsername (docs w)) as [account|] eqn:Hlookup; simpl;
    [|done].
  destruct (comparePassword account bodyPassword) as [[|]|] eqn:Hcompare; simpl;
    [|done..].
  destruct (sign (_id account)) as [token|] eqn:Hsign; simpl; [|done].
  split; [|done]. intros code token' userId [= <- <- <-].
  exists account. by apply lookupUsername_Some in Hlookup as [? _].
Qed.

(** X23. The account that registration creates is the one login finds: when
    the username is free, the schema stores it as given and accepts the
    password it stored, registering answers 201 and a login with the same
    username and password then answers 200 with a token for the same
    identifier. *)
Theorem register_then_login
    (construct : string → string → list string → list User → option User)
    (comparePassword : User → string → option bool)
    (sign : ObjectId → option string)
    (bodyUsername bodyPassword : string)
    (bodyInterests : list string) (w : World) (created : User) (token : string) :
  bodyUsername ∉ username <$> docs w →
  construct bodyUsername bodyPassword bodyInterests (docs w) = Some created →
  username created = bodyUsername →
  comparePassword created bodyPassword = Some true →
  sign (_id created) = Some token →
  ∃ w1 w2,
    postRegister construct sign bodyUsername bodyPassword bodyInterests w
    = (Issued 201 token (_id created), w1)
    ∧ docs w1 = docs w ++ [created]
    ∧ postLogin comparePassword sign bodyUsername bodyPassword w1
      = (Issued 200 token (_id created), w2).
Proof.
  intros Hfree%lookupUsername_None Hcreated Hname Hcompare Hsign.
  unfold postRegister, postLogin, authCatch, registerBody, loginBody, mbind,
    Async_bind, findOneByUsername.
  simpl. rewrite Hfree. simpl. rewrite Hcreated, Hsign.
  eexists _, _. split; [reflexivity|]. split; [reflexivity|]. simpl.
  rewrite (lookupUsername_appended _ _ _ Hfree Hname). simpl.
  by rewrite Hcompare, Hsign.
Qed.

Lemma register_taken_witness :
  ((∃ message,
      (postRegister AuthDemo.construct AuthDemo.sign "ann" "pw" [] Demo.world).1
      = Refused 400 message)
   ↔ "ann" ∈ username <$> docs Demo.world)
  ∧ ("ann" ∈ username <$> docs Demo.world →
     (postRegister AuthDemo.construct AuthDemo.sign "ann" "pw" [] Demo.world).1
     = Refused 400 "Username already exists"
     ∧ docs (postRegister AuthDemo.construct AuthDemo.sign "ann" "pw" [] Demo.world).2
       = docs Demo.world).
Proof. exact (register_taken AuthDemo.construct AuthDemo.sign "ann" "pw" [] Demo.world). Defined.

Lemma register_keeps_usernames_unique_witness :
  NoDup (username <$>
           docs (postRegister AuthDemo.construct AuthDemo.sign "hal" "pw" ["go"]
                   Demo.world).2).
Proof.
  apply (register_keeps_usernames_unique AuthDemo.construct AuthDemo.sign).
  - intros db created [= <-]. reflexivity.
  - apply (bool_decide_unpack _). vm_compute. exact I.
Defined.

Lemma login_gate_witness :
  (∀ code token userId,
      (postLogin AuthDemo.comparePassword AuthDemo.sign "ann" "#" Demo.world).1
      = Issued code token userId →
      ∃ account,
        lookupUsername "ann" (docs Demo.world) = Some account
        ∧ username account = "ann"
        ∧ AuthDemo.comparePassword account "#" = Some true
        ∧ userId = _id account ∧ AuthDemo.sign userId = Some token ∧ code = 200)
  ∧ docs (postLogin AuthDemo.comparePassword AuthDemo.sign "ann" "#" Demo.world).2
    = docs Demo.world.
Proof. exact (login_gate AuthDemo.comparePassword AuthDemo.sign "ann" "#" Demo.world). Defined.

Lemma register_then_login_witness :
  ∃ w1 w2,
    postRegister AuthDemo.construct AuthDemo.sign "hal" "pw" ["go"] Demo.world
    = (Issued 201 "token-abababababababababababa4" "abababababababababababa4", w1)
    ∧ docs w1 = docs Demo.world ++ [mkUser "abababababababababababa4" "hal" (Some "pw") ["go"] [] [] [] 0]
    ∧ postLogin AuthDemo.comparePassword AuthDemo.sign "hal" "pw" w1
      = (Issued 200 "token-abababababababababababa4" "abababababababababababa4", w2).
Proof.
  apply (register_then_login AuthDemo.construct AuthDemo.comparePassword AuthDemo.sign
           "hal" "pw" ["go"] Demo.world
           (mkUser "abababababababababababa4" "hal" (Some "pw") ["go"] [] [] [] 0) "token-abababababababababababa4").
  - apply (bool_decide_unpack _). vm_compute. exact I.
  - reflexivity.
  - reflexivity.
  - reflexivity.
  - reflexivity.
Defined.
